(** * SignalCheck: the multi-signal scoring pipeline

    A shallow embedding of the server-side scoring core of SignalCheck
    (the HuggingFace inference client, the NewsAPI corroboration client, the
    five signal analyzers and the aggregation layer) together with the
    properties its specification states about it.

    Modelling conventions.
    - A JavaScript string is a [string] of code units; the model is exact for
      ASCII text (case mapping and the white-space class are the ASCII ones).
    - A JavaScript number that is a count or a score is a [Z]; a number that
      is a probability or a ratio is a [Q].  All ratios compared in the code
      have small numerators and denominators, so comparing the exact
      rationals agrees with comparing the rounded doubles.
    - [Math.round x] is [Qfloor (x + 1/2)].
    - A [Set] of strings is a [gset string]; the object used as a
      string-keyed map by the sentiment wrapper is a [gmap string Q]; the
      frequency table of [extractKeywords], whose iteration order matters,
      is an association list in insertion order.
    - Code that awaits the network is written in a small free monad [Prog]
      whose events are the [fetch] calls, the timers and the console
      warnings; a thrown exception is the [Throw] leaf. *)

From Stdlib Require Import ZArith QArith Qround Qminmax String Ascii List Bool Lia Lqa.
From stdpp Require Import gmap strings list fin_maps pretty.
Import ListNotations.

Local Open Scope string_scope.

(** ** JavaScript string primitives *)

Module Js.

Definition code (c : ascii) : nat := nat_of_ascii c.

Definition in_range (lo hi : ascii) (c : ascii) : bool :=
  (code lo <=? code c)%nat && (code c <=? code hi)%nat.

Definition is_upper (c : ascii) : bool := in_range "A" "Z" c.
Definition is_lower (c : ascii) : bool := in_range "a" "z" c.
Definition is_digit (c : ascii) : bool := in_range "0" "9" c.

(** [\s]: tab, line feed, vertical tab, form feed, carriage return, space. *)
Definition is_space (c : ascii) : bool :=
  (in_range "009" "013" c || Ascii.eqb c " ")%bool.

(** [\w]: the characters on either side of which [\b] looks. *)
Definition is_word (c : ascii) : bool :=
  is_upper c || is_lower c || is_digit c || Ascii.eqb c "_".

Definition lower_char (c : ascii) : ascii :=
  if is_upper c then ascii_of_nat (code c + 32) else c.

Definition upper_char (c : ascii) : ascii :=
  if is_lower c then ascii_of_nat (code c - 32) else c.

Fixpoint map_chars (f : ascii -> ascii) (s : string) : string :=
  match s with
  | EmptyString => EmptyString
  | String c s' => String (f c) (map_chars f s')
  end.

Definition toLowerCase : string -> string := map_chars lower_char.
Definition toUpperCase : string -> string := map_chars upper_char.

(** [s.slice(0, n)] *)
Fixpoint take (n : nat) (s : string) : string :=
  match n, s with
  | S n', String c s' => String c (take n' s')
  | _, _ => EmptyString
  end.

Fixpoint drop (n : nat) (s : string) : string :=
  match n, s with
  | S n', String _ s' => drop n' s'
  | _, _ => s
  end.

Fixpoint startsWith (p s : string) : bool :=
  match p, s with
  | EmptyString, _ => true
  | String a p', String b s' => Ascii.eqb a b && startsWith p' s'
  | String _ _, EmptyString => false
  end.

Definition endsWith (s p : string) : bool :=
  (String.length p <=? String.length s)%nat
  && String.eqb (drop (String.length s - String.length p) s) p.

(** [s.indexOf(p, pos)]; [None] stands for [-1]. *)
Fixpoint indexOf_aux (p s : string) (i : nat) : option nat :=
  if startsWith p s then Some i
  else match s with
       | EmptyString => None
       | String _ s' => indexOf_aux p s' (S i)
       end.

Definition indexOf (s p : string) (pos : nat) : option nat :=
  if (pos <=? String.length s)%nat then indexOf_aux p (drop pos s) pos
  else if String.eqb p "" then Some (String.length s) else None.

Definition includes (s p : string) : bool :=
  match indexOf s p 0 with Some _ => true | None => false end.

(** The idiom
    [while ((pos = s.indexOf(p, pos)) !== -1) { n++; pos += p.length; }].
    Every iteration moves [pos] forward when [p] is not empty, so
    [String.length s + 1] rounds exhaust the string. *)
Fixpoint indexOf_loop (fuel : nat) (s p : string) (pos n : nat) : nat :=
  match fuel with
  | O => n
  | S fuel' =>
      match indexOf s p pos with
      | None => n
      | Some i => indexOf_loop fuel' s p (i + String.length p) (S n)
      end
  end.

Definition countOccurrences (s p : string) : nat :=
  indexOf_loop (S (String.length s)) s p 0 0.

Fixpoint trimStart (s : string) : string :=
  match s with
  | String c s' => if is_space c then trimStart s' else s
  | EmptyString => EmptyString
  end.

Fixpoint trimEnd (s : string) : string :=
  match s with
  | EmptyString => EmptyString
  | String c s' =>
      match trimEnd s' with
      | EmptyString => if is_space c then EmptyString else String c EmptyString
      | t => String c t
      end
  end.

Definition trim (s : string) : string := trimEnd (trimStart s).

(** [xs.join(sep)] *)
Fixpoint join (sep : string) (xs : list string) : string :=
  match xs with
  | [] => ""
  | [x] => x
  | x :: rest => x +:+ sep +:+ join sep rest
  end.

(** [s.replace(p, r)] with a string pattern: the first occurrence only. *)
Definition replaceFirst (s p r : string) : string :=
  match indexOf s p 0 with
  | None => s
  | Some i => take i s +:+ r +:+ drop (i + String.length p) s
  end.

(** A string used as a condition is truthy when it is not empty. *)
Definition truthy (s : string) : bool := negb (String.eqb s "").

(** [Math.round] *)
Definition round (x : Q) : Z := Qfloor (x + (1 # 2)).

(** A number as a template literal prints it ([${n}]). *)
Definition show (z : Z) : string := pretty z.

End Js.

(** ** Regular expressions

    The fragment of the JavaScript regular-expression language the sources
    use, with the backtracking semantics of the language: alternatives are
    tried left to right, quantifiers are greedy, and the first way to match
    wins.  The matcher is written in continuation-passing style; the
    continuation receives the character just before the current position
    (which [\b] and [^] look at) and the rest of the input. *)

Module Regex.

Inductive cset : Type :=
| CChar (c : ascii)            (* a single character *)
| CRange (lo hi : ascii)       (* lo-hi *)
| CSpace                       (* \s *)
| CDigit                       (* \d *)
| CWord.                       (* \w *)

Inductive regex : Type :=
| Eps
| Chr (c : ascii)
| Cls (negated : bool) (items : list cset)
| Seq (r1 r2 : regex)
| Alt (r1 r2 : regex)
| Rep (min : nat) (max : option nat) (r : regex)
| WordB                        (* \b *)
| Bol.                         (* ^ *)

(** The flags a pattern is compiled with. *)
Record flags : Type := { ignoreCase : bool; global : bool }.

Definition fl_none : flags := {| ignoreCase := false; global := false |}.
Definition fl_g : flags := {| ignoreCase := false; global := true |}.
Definition fl_i : flags := {| ignoreCase := true; global := false |}.
Definition fl_gi : flags := {| ignoreCase := true; global := true |}.

(** *** Reading a pattern from its source text

    The patterns are kept as the source spells them and parsed by
    recursive descent: alternatives, sequences, quantified atoms.  [fuel]
    bounds the recursion depth. *)

Definition smart_seq (r1 r2 : regex) : regex :=
  match r2 with Eps => r1 | _ => Seq r1 r2 end.

Fixpoint parse_nat (s : string) (acc : nat) : nat * string :=
  match s with
  | String c s' =>
      if Js.is_digit c then parse_nat s' (10 * acc + (Js.code c - 48))%nat
      else (acc, s)
  | EmptyString => (acc, s)
  end.

(** The items of a class up to its closing bracket. *)
Fixpoint parse_items (fuel : nat) (s : string) : option (list cset * string) :=
  match fuel with
  | O => None
  | S fuel' =>
      match s with
      | EmptyString => None
      | String "]" s' => Some ([], s')
      | String "\" (String e s') =>
          let it := if Ascii.eqb e "s" then CSpace
                    else if Ascii.eqb e "d" then CDigit
                    else if Ascii.eqb e "w" then CWord
                    else CChar e in
          match parse_items fuel' s' with
          | Some (its, rest) => Some (it :: its, rest)
          | None => None
          end
      | String lo (String "-" (String hi s')) =>
          if Ascii.eqb hi "]" then
            match parse_items fuel' (String "-" (String hi s')) with
            | Some (its, rest) => Some (CChar lo :: its, rest)
            | None => None
            end
          else
            match parse_items fuel' s' with
            | Some (its, rest) => Some (CRange lo hi :: its, rest)
            | None => None
            end
      | String c s' =>
          match parse_items fuel' s' with
          | Some (its, rest) => Some (CChar c :: its, rest)
          | None => None
          end
      end
  end.

(** A quantifier after an atom, when there is one. *)
Definition parse_quantifier (r : regex) (s : string) : option (regex * string) :=
  match s with
  | String "?" s' => Some (Rep 0 (Some 1%nat) r, s')
  | String "+" s' => Some (Rep 1 None r, s')
  | String "*" s' => Some (Rep 0 None r, s')
  | String "{" s' =>
      let '(n, s1) := parse_nat s' 0 in
      match s1 with
      | String "}" s2 => Some (Rep n (Some n) r, s2)
      | String "," (String "}" s2) => Some (Rep n None r, s2)
      | String "," s2 =>
          let '(m, s3) := parse_nat s2 0 in
          match s3 with
          | String "}" s4 => Some (Rep n (Some m) r, s4)
          | _ => None
          end
      | _ => None
      end
  | _ => Some (r, s)
  end.

Fixpoint parse_alt (fuel : nat) (s : string) : option (regex * string) :=
  match fuel with
  | O => None
  | S fuel' =>
      match parse_seq fuel' s with
      | Some (r1, String "|" s') =>
          match parse_alt fuel' s' with
          | Some (r2, rest) => Some (Alt r1 r2, rest)
          | None => None
          end
      | other => other
      end
  end
with parse_seq (fuel : nat) (s : string) : option (regex * string) :=
  match fuel with
  | O => None
  | S fuel' =>
      match s with
      | EmptyString | String "|" _ | String ")" _ => Some (Eps, s)
      | _ =>
          match parse_atom fuel' s with
          | Some (a, s1) =>
              match parse_quantifier a s1 with
              | Some (q, s2) =>
                  match parse_seq fuel' s2 with
                  | Some (r, rest) => Some (smart_seq q r, rest)
                  | None => None
                  end
              | None => None
              end
          | None => None
          end
      end
  end
with parse_atom (fuel : nat) (s : string) : option (regex * string) :=
  match fuel with
  | O => None
  | S fuel' =>
      match s with
      | String "(" s' =>
          let inner := match s' with
                       | String "?" (String ":" s'') => s''
                       | _ => s'
                       end in
          match parse_alt fuel' inner with
          | Some (r, String ")" rest) => Some (r, rest)
          | _ => None
          end
      | String "[" (String "^" s') =>
          match parse_items (String.length s') s' with
          | Some (its, rest) => Some (Cls true its, rest)
          | None => None
          end
      | String "[" s' =>
          match parse_items (String.length s') s' with
          | Some (its, rest) => Some (Cls false its, rest)
          | None => None
          end
      | String "\" (String e s') =>
          Some (if Ascii.eqb e "b" then WordB
                else if Ascii.eqb e "s" then Cls false [CSpace]
                else if Ascii.eqb e "d" then Cls false [CDigit]
                else if Ascii.eqb e "w" then Cls false [CWord]
                else Chr e, s')
      | String "^" s' => Some (Bol, s')
      | String "." s' => Some (Cls true [CChar "010"; CChar "013"], s')
      | String c s' =>
          if existsb (Ascii.eqb c) ["$"; "*"; "+"; "?"; "{"; "}"; "]"; "\"]%char
          then None else Some (Chr c, s')
      | EmptyString => None
      end
  end.

Definition parse (src : string) : option regex :=
  match parse_alt (2 * String.length src + 2) src with
  | Some (r, EmptyString) => Some r
  | _ => None
  end.

(** A compiled pattern: [/src/flags].  A text that is not a pattern of the
    fragment compiles to the pattern that matches nothing. *)
Record RegExp : Type := { re_source : string; re_flags : flags }.

Definition compile (p : RegExp) : regex :=
  match parse (re_source p) with Some r => r | None => Cls false [] end.

Definition re (src : string) : RegExp := {| re_source := src; re_flags := fl_none |}.
Definition re_g (src : string) : RegExp := {| re_source := src; re_flags := fl_g |}.
Definition re_i (src : string) : RegExp := {| re_source := src; re_flags := fl_i |}.
Definition re_gi (src : string) : RegExp := {| re_source := src; re_flags := fl_gi |}.


(** *** Matching *)

Definition same_char (ci : bool) (a b : ascii) : bool :=
  if ci then Ascii.eqb (Js.upper_char a) (Js.upper_char b) else Ascii.eqb a b.

Definition in_item (c : ascii) (it : cset) : bool :=
  match it with
  | CChar a => Ascii.eqb a c
  | CRange lo hi => Js.in_range lo hi c
  | CSpace => Js.is_space c
  | CDigit => Js.is_digit c
  | CWord => Js.is_word c
  end.

(** With the [i] flag a character belongs to a class when the class has a
    member with the same canonical (upper-case) form. *)
Definition in_class (ci : bool) (items : list cset) (c : ascii) : bool :=
  existsb (in_item c) items
  || (ci && (existsb (in_item (Js.lower_char c)) items
             || existsb (in_item (Js.upper_char c)) items)).

Definition word_before (prev : option ascii) : bool :=
  match prev with Some c => Js.is_word c | None => false end.

Definition word_after (s : string) : bool :=
  match s with String c _ => Js.is_word c | EmptyString => false end.

Definition under (cnt : nat) (max : option nat) : bool :=
  match max with Some m => (cnt <? m)%nat | None => true end.

Section Matcher.
Context {A : Type}.
Variable ci : bool.

(** An iteration of a quantified group must consume input; each one
    shortens the rest, so [String.length s + 1] rounds are enough. *)
Fixpoint run (r : regex) (prev : option ascii) (s : string)
         (k : option ascii -> string -> option A) {struct r} : option A :=
  match r with
  | Eps => k prev s
  | Chr c =>
      match s with
      | String d s' => if same_char ci c d then k (Some d) s' else None
      | EmptyString => None
      end
  | Cls neg items =>
      match s with
      | String d s' =>
          if xorb neg (in_class ci items d) then k (Some d) s' else None
      | EmptyString => None
      end
  | Seq r1 r2 => run r1 prev s (fun p s' => run r2 p s' k)
  | Alt r1 r2 =>
      match run r1 prev s k with
      | Some x => Some x
      | None => run r2 prev s k
      end
  | Rep mn mx r0 =>
      (fix loop (fuel cnt : nat) (prev : option ascii) (s : string)
         {struct fuel} : option A :=
         match fuel with
         | O => None
         | S fuel' =>
             let again :=
               if under cnt mx then
                 run r0 prev s
                   (fun p s' =>
                      if (String.length s' <? String.length s)%nat
                      then loop fuel' (S cnt) p s' else None)
               else None in
             match again with
             | Some x => Some x
             | None => if (mn <=? cnt)%nat then k prev s else None
             end
         end) (S (String.length s)) O prev s
  | WordB =>
      if xorb (word_before prev) (word_after s) then k prev s else None
  | Bol => match prev with None => k prev s | Some _ => None end
  end.
End Matcher.

(** A match attempt at the current position: the rest of the input after
    the match, when there is one. *)
Definition match_here (f : flags) (r : regex) (prev : option ascii)
           (s : string) : option string :=
  run (ignoreCase f) r prev s (fun _ rest => Some rest).

Definition consumed (s rest : string) : nat :=
  (String.length s - String.length rest)%nat.

(** All matches of a global pattern, left to right: after a match the
    search resumes at its end, one character further when it was empty.
    [skip] counts the characters of the last match still to be passed. *)
Fixpoint scan (f : flags) (r : regex) (prev : option ascii) (s : string)
         (skip : nat) : list string :=
  match skip with
  | S n =>
      match s with
      | String c s' => scan f r (Some c) s' n
      | EmptyString => []
      end
  | O =>
      match match_here f r prev s with
      | Some rest =>
          let n := consumed s rest in
          Js.take n s ::
            match s with
            | String c s' => scan f r (Some c) s' (n - 1)
            | EmptyString => []
            end
      | None =>
          match s with
          | String c s' => scan f r (Some c) s' O
          | EmptyString => []
          end
      end
  end.

(** [s.matchAll(p)] and [s.match(p)] for a global [p]: the matched texts. *)
Definition matchAll (p : RegExp) (s : string) : list string :=
  scan (re_flags p) (compile p) None s O.

(** The number of matches: [for (const _ of s.matchAll(p)) n++] and
    [(s.match(p) || []).length]. *)
Definition count (p : RegExp) (s : string) : Z :=
  Z.of_nat (length (matchAll p s)).

(** [p.test(s)] for a pattern without the [g] flag (the only ones the
    sources test, so [lastIndex] plays no part): is there a match starting
    anywhere? *)
Fixpoint search (f : flags) (r : regex) (prev : option ascii) (s : string)
  : bool :=
  match match_here f r prev s with
  | Some _ => true
  | None =>
      match s with
      | String c s' => search f r (Some c) s'
      | EmptyString => false
      end
  end.

Definition test (p : RegExp) (s : string) : bool :=
  search (re_flags p) (compile p) None s.

(** Replacing every match of a global pattern. *)
Fixpoint replace_scan (f : flags) (r : regex) (by_ : string)
         (prev : option ascii) (s : string) (skip : nat) : string :=
  match skip with
  | S n =>
      match s with
      | String c s' => replace_scan f r by_ (Some c) s' n
      | EmptyString => ""
      end
  | O =>
      match match_here f r prev s with
      | Some rest =>
          let n := consumed s rest in
          by_ +:+
            match s with
            | String c s' =>
                (if (n =? 0)%nat then String c "" else "")
                +:+ replace_scan f r by_ (Some c) s' (n - 1)
            | EmptyString => ""
            end
      | None =>
          match s with
          | String c s' => String c (replace_scan f r by_ (Some c) s' O)
          | EmptyString => ""
          end
      end
  end.

(** The same for a pattern without the [g] flag: the first match only. *)
Fixpoint replace_first_scan (f : flags) (r : regex) (by_ : string)
         (prev : option ascii) (s : string) : string :=
  match match_here f r prev s with
  | Some rest => by_ +:+ rest
  | None =>
      match s with
      | String c s' => String c (replace_first_scan f r by_ (Some c) s')
      | EmptyString => ""
      end
  end.

(** [s.replace(p, by)]: every match of a global pattern, the first match
    of any other. *)
Definition replace (p : RegExp) (by_ s : string) : string :=
  if global (re_flags p)
  then replace_scan (re_flags p) (compile p) by_ None s O
  else replace_first_scan (re_flags p) (compile p) by_ None s.

(** [s.split(r)]: a match that is empty at the start of the current piece
    is passed over; any other match closes the piece.  [piece] is the
    current piece, last character first. *)
Fixpoint split_scan (f : flags) (r : regex) (prev : option ascii)
         (s : string) (skip : nat) (piece : list ascii) : list string :=
  match s with
  | EmptyString => [string_of_list_ascii (rev piece)]
  | String c s' =>
      match skip with
      | S n => split_scan f r (Some c) s' n piece
      | O =>
          match match_here f r prev s with
          | Some rest =>
              let n := consumed s rest in
              if (n =? 0)%nat then
                match piece with
                | [] => split_scan f r (Some c) s' O [c]
                | _ => string_of_list_ascii (rev piece)
                       :: split_scan f r (Some c) s' O [c]
                end
              else string_of_list_ascii (rev piece)
                   :: split_scan f r (Some c) s' (n - 1) []
          | None => split_scan f r (Some c) s' O (c :: piece)
          end
      end
  end.

Definition split (p : RegExp) (s : string) : list string :=
  match s with
  | EmptyString =>
      match match_here (re_flags p) (compile p) None "" with
      | Some _ => []
      | None => [""]
      end
  | _ => split_scan (re_flags p) (compile p) None s O []
  end.

End Regex.

(** ** Programs that talk to the network

    [fetch] resolves to a response or rejects (no network, the
    [AbortSignal.timeout] firing).  A response carries its status and its
    body; [json] is [None] when the body does not parse, which makes
    [res.json()] reject.  The parsed body is read at the shape the caller
    documents for the endpoint it queries. *)

Module Net.

(** [{label: ..., score: ...}], an entry of a classification response. *)
Record LabelScore : Type := { label : string; score : Q }.

(** A token of the NER response; either [entity_group] or [entity] is
    present depending on the aggregation strategy of the endpoint. *)
Record RawEntity : Type :=
  { raw_word : string;
    raw_entity_group : option string;
    raw_entity : option string;
    raw_score : Q }.

(** An entry of [data.articles] of the NewsAPI response. *)
Record Article : Type :=
  { art_title : option string;
    art_description : option string;
    art_source_name : option string;   (* article.source?.name *)
    art_url : option string }.

(** A parsed JSON body is an array of the documented elements or anything
    else ([Array.isArray] tells them apart). *)
Inductive json (A : Type) : Type :=
| JArray (items : list A)
| JOther.
Arguments JArray {A} items.
Arguments JOther {A}.

Inductive kind : Type := KClassification | KEntities | KNews.

Definition payload (k : kind) : Type :=
  match k with
  | KClassification => json (list LabelScore)  (* [[{label, score}, ...]] *)
  | KEntities => json RawEntity               (* [{word, entity_group, ...}] *)
  | KNews => option (list Article)            (* data.articles, when present *)
  end.

Record Response (k : kind) : Type :=
  { status : Z; res_body : option (payload k) }.
Arguments status {k} r.
Arguments res_body {k} r.

(** [res.ok] *)
Definition ok {k} (res : Response k) : bool :=
  ((200 <=? status res) && (status res <=? 299))%Z.

Inductive FetchOutcome (k : kind) : Type :=
| Rejected (message : string)
| Resolved (res : Response k).
Arguments Rejected {k} message.
Arguments Resolved {k} res.

Record Request : Type :=
  { req_url : string;
    req_method : string;
    req_headers : list (string * string);
    req_params : list (string * string);   (* the query string *)
    req_body : option string;               (* the [inputs] posted *)
    req_timeout : Z }.

Inductive event : Type -> Type :=
| Fetch (k : kind) (req : Request) : event (FetchOutcome k)
| SetTimeout (ms : Z) : event unit
| ConsoleWarn (msg : string) : event unit.

(** An [async] function body: it returns, throws, or awaits an event and
    goes on with its answer. *)
Inductive Prog (A : Type) : Type :=
| Ret (a : A)
| Throw (message : string)
| Vis {X : Type} (e : event X) (k : X -> Prog A).
Arguments Ret {A} a.
Arguments Throw {A} message.
Arguments Vis {A X} e k.

Fixpoint bind {A B : Type} (p : Prog A) (f : A -> Prog B) : Prog B :=
  match p with
  | Ret a => f a
  | Throw m => Throw m
  | Vis e k => Vis e (fun x => bind (k x) f)
  end.

(** [try { p } catch (err) { h err.message }] *)
Fixpoint try_catch {A : Type} (p : Prog A) (h : string -> Prog A) : Prog A :=
  match p with
  | Ret a => Ret a
  | Throw m => h m
  | Vis e k => Vis e (fun x => try_catch (k x) h)
  end.

Definition trigger {X : Type} (e : event X) : Prog X := Vis e Ret.

(** [await fetch(...)] *)
Definition fetch (k : kind) (req : Request) : Prog (Response k) :=
  Vis (Fetch k req)
      (fun o => match o with
                | Rejected m => Throw m
                | Resolved res => Ret res
                end).

(** [await res.json()] *)
Definition res_json {k} (res : Response k) : Prog (payload k) :=
  match res_body res with
  | Some j => Ret j
  | None => Throw "Unexpected token in JSON"
  end.

(** [await new Promise(r => setTimeout(r, ms))] *)
Definition sleep (ms : Z) : Prog unit := trigger (SetTimeout ms).

Definition console_warn (msg : string) : Prog unit :=
  trigger (ConsoleWarn msg).

(** *** Running a program against the outside world *)

(** How a run ends. *)
Inductive result (A : Type) : Type :=
| Returned (a : A)
| Threw (message : string).
Arguments Returned {A} a.
Arguments Threw {A} message.

(** The outside world in state [W] answers every event and moves on. *)
Definition world (W : Type) : Type := forall X : Type, event X -> W -> X * W.

Fixpoint exec {W A : Type} (h : world W) (p : Prog A) (w : W) : result A * W :=
  match p with
  | Ret a => (Returned a, w)
  | Throw m => (Threw m, w)
  | Vis e k => let '(x, w') := h _ e w in exec h (k x) w'
  end.

(** What a run leaves behind: the requests sent, the timers armed and the
    warnings printed, oldest first. *)
Inductive obs : Type :=
| OFetch (req : Request)
| OTimer (ms : Z)
| OWarn (msg : string).

(** A scripted world, as a test mocks [fetch]: the [n]-th call of [fetch]
    (counting from 0) is answered by [script n]. *)
Definition script : Type := forall k : kind, nat -> Request -> FetchOutcome k.

Definition scripted (sc : script) : world (nat * list obs) :=
  fun X e =>
    match e in event X return nat * list obs -> X * (nat * list obs) with
    | Fetch k req => fun '(n, log) => (sc k n req, (S n, (log ++ [OFetch req])%list))
    | SetTimeout ms => fun '(n, log) => (tt, (n, (log ++ [OTimer ms])%list))
    | ConsoleWarn msg => fun '(n, log) => (tt, (n, (log ++ [OWarn msg])%list))
    end.

Definition run {A : Type} (sc : script) (p : Prog A) : result A * list obs :=
  let '(r, (_, log)) := exec (scripted sc) p (O, []) in (r, log).


End Net.

Declare Scope prog_scope.
Delimit Scope prog_scope with prog.
Notation "x <- p ;; q" := (Net.bind p (fun x => q))
  (at level 100, p at next level, right associativity) : prog_scope.
Notation "p ;;; q" := (Net.bind p (fun _ => q))
  (at level 100, right associativity) : prog_scope.

(** ** The data model *)

(** [process.env], read once when the modules are loaded. *)
Record Env : Type := { HF_TOKEN : string; NEWS_API_KEY : string }.

(** The normalized record every analyzer reads.  The acquisition step
    always fills the six text fields, with [''] for what it did not find. *)
Record Content : Type :=
  { title : string;
    body : string;
    meta : string;
    author : string;
    date : string;
    source : string;
    platform : option string }.

Inductive Level : Type := low | medium | high.

Definition Level_eqb (a b : Level) : bool :=
  match a, b with
  | low, low | medium, medium | high, high => true
  | _, _ => false
  end.

#[global] Instance Level_eq_dec : EqDecision Level.
Proof. solve_decision. Defined.

(** Comparisons of JavaScript numbers. *)
Definition Qgtb (x y : Q) : bool := negb (Qle_bool x y).
Definition Qltb (x y : Q) : bool := negb (Qle_bool y x).
Definition Qgeb (x y : Q) : bool := Qle_bool y x.

(** ** mlClient.js: the HuggingFace inference client *)

Module MlClient.
Import Net.
Local Open Scope prog_scope.

Definition HF_API_BASE : string := "https://api-inference.huggingface.co/models".

Record Models : Type :=
  { syntheticText : string; ner : string; sentiment : string }.

Definition MODELS : Models :=
  {| syntheticText := "openai-community/roberta-base-openai-detector";
     ner := "dslim/bert-base-NER";
     sentiment := "cardiffnlp/twitter-roberta-base-sentiment-latest" |}.

Definition hfHeaders (env : Env) : list (string * string) :=
  let h := [("Content-Type", "application/json")] in
  if Js.truthy (HF_TOKEN env)
  then (h ++ [("Authorization", "Bearer " +:+ HF_TOKEN env)])%list
  else h.

Definition hfRequest (env : Env) (model inputs : string) : Request :=
  {| req_url := HF_API_BASE +:+ "/" +:+ model;
     req_method := "POST";
     req_headers := hfHeaders env;
     req_params := [];
     req_body := Some inputs;
     req_timeout := 25000 |}.

(** One pass through the body of [hfInference]; [again] is the recursive
    call [hfInference(model, inputs, true)], reached only when the model
    is loading and no retry has been made yet.  (The source returns the
    promise of that call from inside [try] without awaiting it, so its
    rejection would pass the [catch]; the call never rejects, see
    [hfInference_returns], so placing it inside [try_catch] changes
    nothing.) *)
Definition hfInference_pass {k : kind} (env : Env) (model inputs : string)
           (retried : bool) (again : Prog (option (payload k)))
  : Prog (option (payload k)) :=
  try_catch
    (res <- fetch k (hfRequest env model inputs) ;;
     if ((status res =? 503)%Z && negb retried)%bool then
       (* Model is loading: wait and retry once *)
       (sleep 10000 ;;; again)
     else if negb (ok res) then Ret None
     else (j <- res_json res ;; Ret (Some j)))
    (fun _ => Ret None).

(** [hfInference(model, inputs, retried = false)].  The call made from the
    retried pass has [retried = true] and so never calls again. *)
Definition hfInference {k : kind} (env : Env) (model inputs : string)
           (retried : bool) : Prog (option (payload k)) :=
  hfInference_pass env model inputs retried
    (hfInference_pass env model inputs true (Ret None)).

(** [text.split(/\s+/).slice(0, 400).join(' ')] *)
Definition truncate (text : string) : string :=
  Js.join " " (firstn 400 (Regex.split (Regex.re "\s+") text)).

(** AI text detection: the synthetic probability, or null on failure. *)
Definition detectSynthetic (env : Env) (text : string) : Prog (option Q) :=
  let truncated := truncate text in
  result <- hfInference (k := KClassification) env (syntheticText MODELS) truncated false ;;
  match result with
  | Some (JArray result) =>
      (* Response shape: [[{label:'LABEL_1', score:0.9}, {label:'LABEL_0', score:0.1}]] *)
      let labels := match result with l0 :: _ => l0 | [] => [] end in
      let fakeLabel :=
        List.find (fun l => String.eqb (label l) "LABEL_1" || String.eqb (label l) "Fake")
                  labels in
      Ret (match fakeLabel with Some l => Some (score l) | None => None end)
  | _ => Ret None
  end.

Record Entity : Type :=
  { word : string; entity_group : string; entity_score : Q }.

Record EntityData : Type :=
  { person_count : Z; org_count : Z; entities : list Entity }.

(** [e.entity_group ?? (e.entity?.replace(/^[BI]-/, '') || 'MISC')] *)
Definition entityGroup (e : RawEntity) : string :=
  match raw_entity_group e with
  | Some g => g
  | None =>
      match raw_entity e with
      | Some t =>
          let stripped := Regex.replace (Regex.re "^[BI]-") "" t in
          if Js.truthy stripped then stripped else "MISC"
      | None => "MISC"
      end
  end.

(** [[...new Set(xs)].length] *)
Definition distinct (xs : list string) : Z :=
  Z.of_nat (size (list_to_set xs : gset string)).

(** Named entity recognition. *)
Definition analyzeEntities (env : Env) (text : string) : Prog (option EntityData) :=
  let truncated := truncate text in
  result <- hfInference (k := KEntities) env (ner MODELS) truncated false ;;
  match result with
  | Some (JArray result) =>
      (* Aggregate B-/I-PER and B-/I-ORG tokens *)
      let entities :=
        List.map (fun e => {| word := raw_word e;
                              entity_group := entityGroup e;
                              entity_score := raw_score e |}) result in
      let persons := List.filter (fun e => String.eqb (entity_group e) "PER") entities in
      let orgs := List.filter (fun e => String.eqb (entity_group e) "ORG") entities in
      (* Deduplicate by word *)
      Ret (Some {| person_count := distinct (List.map word persons);
                   org_count := distinct (List.map word orgs);
                   entities := entities |})
  | _ => Ret None
  end.

Record Sentiment : Type :=
  { s_label : string; s_score : Q; s_scores : gmap string Q }.

(** One round of [for (const l of labels)]. *)
Definition sentiment_step (st : gmap string Q * option LabelScore) (l : LabelScore)
  : gmap string Q * option LabelScore :=
  let '(scores, topLabel) := st in
  let key := Js.replaceFirst (Js.toLowerCase (label l)) "label_" "" in
  (* Normalise label names: 0=negative, 1=neutral, 2=positive (model-specific) *)
  let friendlyKey :=
    if String.eqb key "0" then "negative"
    else if String.eqb key "1" then "neutral"
    else if String.eqb key "2" then "positive"
    else key in
  (<[friendlyKey := score l]> scores,
   if Qgtb (score l) (match topLabel with Some t => score t | None => 0 end)
   then Some l else topLabel).

(** Sentiment analysis.  With no label at all [topLabel] stays undefined
    and reading [topLabel.label] throws. *)
Definition analyzeSentiment (env : Env) (text : string) : Prog (option Sentiment) :=
  let truncated := truncate text in
  result <- hfInference (k := KClassification) env (sentiment MODELS) truncated false ;;
  match result with
  | Some (JArray result) =>
      (* Response shape: [[{label:'positive', score:0.1}, ...]] *)
      let labels := match result with l0 :: _ => l0 | [] => [] end in
      let '(scores, topLabel) :=
        fold_left sentiment_step labels (∅, List.head labels) in
      match topLabel with
      | None => Throw "Cannot read properties of undefined (reading 'label')"
      | Some topLabel =>
          let friendlyTop :=
            if String.eqb (label topLabel) "0" then "negative"
            else if String.eqb (label topLabel) "1" then "neutral"
            else if String.eqb (label topLabel) "2" then "positive"
            else Js.toLowerCase (label topLabel) in
          Ret (Some {| s_label := friendlyTop;
                       s_score := score topLabel;
                       s_scores := scores |})
      end
  | _ => Ret None
  end.

End MlClient.

(** ** newsApi.js: the NewsAPI corroboration client *)

Module NewsApi.
Import Net.
Local Open Scope prog_scope.

Definition NEWS_API_BASE : string := "https://newsapi.org/v2/everything".

Definition STOP_WORDS : gset string :=
  list_to_set
    ["the"; "a"; "an"; "is"; "are"; "was"; "were"; "be"; "been"; "being"; "have"; "has"; "had";
     "do"; "does"; "did"; "will"; "would"; "could"; "should"; "may"; "might"; "can"; "shall";
     "not"; "no"; "nor"; "so"; "yet"; "both"; "either"; "for"; "and"; "but"; "or"; "of"; "to";
     "in"; "on"; "at"; "by"; "with"; "from"; "into"; "through"; "about"; "against"; "between";
     "that"; "this"; "these"; "those"; "it"; "its"; "their"; "they"; "we"; "you"; "he"; "she";
     "said"; "says"; "according"; "also"; "just"; "more"; "than"; "then"; "when"; "who"; "which"].

(** [freq[w] = (freq[w] || 0) + 1] on an object whose keys are listed in
    the order they were first written.  (The keys here are lower-case
    words of five letters or more; a word that names an inherited
    property of a plain object, ["constructor"], is outside the model.) *)
Fixpoint bump (w : string) (freq : list (string * Z)) : list (string * Z) :=
  match freq with
  | [] => [(w, 1%Z)]
  | (k, n) :: rest =>
      if String.eqb k w then (k, (n + 1)%Z) :: rest else (k, n) :: bump w rest
  end.

(** [entries.sort((a, b) => b[1] - a[1])]: by falling count; the sort is
    stable, so entries of equal count keep their order. *)
Fixpoint insert_desc (x : string * Z) (sorted : list (string * Z))
  : list (string * Z) :=
  match sorted with
  | [] => [x]
  | y :: rest =>
      if (snd y <=? snd x)%Z then x :: y :: rest else y :: insert_desc x rest
  end.

Definition sort_desc (entries : list (string * Z)) : list (string * Z) :=
  fold_right insert_desc [] entries.

(** Extract the most meaningful keywords from text for a search query. *)
Definition extractKeywords (text : string) (maxWords : nat) : string :=
  let words :=
    firstn 40
      (List.filter
         (fun w => (4 <? String.length w)%nat
                   && negb (bool_decide (Js.toLowerCase w ∈ STOP_WORDS)))
         (Regex.split (Regex.re "\s+")
            (Regex.replace (Regex.re_g "[^a-zA-Z\s]") " " text))) in
  (* Count frequency *)
  let freq := fold_left (fun freq w => bump w freq) (List.map Js.toLowerCase words) [] in
  Js.join " " (List.map fst (firstn maxWords (sort_desc freq))).

Definition wordSet (a : string) : gset string :=
  list_to_set
    (List.filter (fun w => (3 <? String.length w)%nat)
       (Regex.split (Regex.re "\s+") (Js.toLowerCase a))).

(** Similarity between two texts based on word overlap. *)
Definition textSimilarity (a b : string) : Q :=
  let wordsA := wordSet a in
  let wordsB := wordSet b in
  let intersection := Z.of_nat (size (wordsA ∩ wordsB)) in
  let union := Z.of_nat (size (wordsA ∪ wordsB)) in
  if (0 <? union)%Z then inject_Z intersection / inject_Z union else 0.

Record SourceEntry : Type :=
  { src_title : option string;
    src_source : option string;
    src_url : option string;
    similarity : Z }.

Record Corroboration : Type :=
  { found : Z;
    sources : list SourceEntry;
    uniqueSourceCount : Z;
    independentPhrasing : bool;
    query : option string;
    summary : string }.

Definition newsRequest (env : Env) (query : string) : Request :=
  {| req_url := NEWS_API_BASE;
     req_method := "GET";
     req_headers := [];
     req_params := [("q", query); ("sortBy", "relevancy"); ("pageSize", "10");
                    ("language", "en"); ("apiKey", NEWS_API_KEY env)];
     req_body := None;
     req_timeout := 8000 |}.

Definition orEmpty (s : option string) : string :=
  match s with Some t => t | None => "" end.

(** The state of the loop over [articles.slice(0, 8)]. *)
Record Tally : Type :=
  { highSimilarityCount : Z;
    tally_sources : list SourceEntry;
    sourceDomains : gset string }.

(** [`${article.title || ''} ${article.description || ''}`] *)
Definition articleText (article : Article) : string :=
  orEmpty (art_title article) +:+ " " +:+ orEmpty (art_description article).

Definition tally_step (bodyText : string) (t : Tally) (article : Article) : Tally :=
  let sim := textSimilarity bodyText (articleText article) in
  {| tally_sources :=
       (tally_sources t ++
          [{| src_title := art_title article;
              src_source := art_source_name article;
              src_url := art_url article;
              similarity := Js.round (sim * 100) |}])%list;
     sourceDomains :=
       match art_source_name article with
       | Some name => if Js.truthy name then sourceDomains t ∪ {[ name ]} else sourceDomains t
       | None => sourceDomains t
       end;
     highSimilarityCount :=
       if Qgtb sim (35 # 100) then (highSimilarityCount t + 1)%Z
       else highSimilarityCount t |}.

(** What [checkCorroboration] builds from a response that parsed. *)
Definition corroborate (body query : string) (articles : list Article) : Corroboration :=
  if (length articles =? 0)%nat then
    {| found := 0; sources := []; uniqueSourceCount := 0;
       independentPhrasing := false; query := None;
       summary := "No related articles found in recent news." |}
  else
    (* Measure phrasing independence *)
    let bodyText := Js.take 800 body in
    let t := fold_left (tally_step bodyText) (firstn 8 articles)
               {| highSimilarityCount := 0; tally_sources := []; sourceDomains := ∅ |} in
    let uniqueSourceCount := Z.of_nat (size (sourceDomains t)) in
    (* Independent phrasing = many sources, but not verbatim copies *)
    let independentPhrasing :=
      ((3 <=? uniqueSourceCount)%Z && (highSimilarityCount t <? 3)%Z)%bool in
    {| found := Z.of_nat (length articles);
       sources := firstn 5 (tally_sources t);
       uniqueSourceCount := uniqueSourceCount;
       independentPhrasing := independentPhrasing;
       query := Some query;
       summary :=
         if independentPhrasing then
           Js.show uniqueSourceCount +:+ " independent sources report on this topic with different phrasing — a positive corroboration signal."
         else if (0 <? uniqueSourceCount)%Z then
           "Found " +:+ Js.show uniqueSourceCount +:+ " source"
           +:+ (if negb (uniqueSourceCount =? 1)%Z then "s" else "")
           +:+ " covering similar claims, but phrasing overlap is high — possible copy-paste republishing."
         else "No independent corroboration found in recent news." |}.

(** Query NewsAPI and return the corroboration analysis, or null. *)
Definition checkCorroboration (env : Env) (content : Content)
  : Prog (option Corroboration) :=
  if negb (Js.truthy (NEWS_API_KEY env)) then Ret None (* graceful degradation *)
  else
    let query := extractKeywords (body content) 8 in
    if (negb (Js.truthy query) || (String.length query <? 10)%nat)%bool then Ret None
    else
      try_catch
        (res <- fetch KNews (newsRequest env query) ;;
         if negb (ok res) then
           (console_warn ("NewsAPI returned " +:+ Js.show (status res)) ;;; Ret None)
         else
           (data <- res_json res ;;
            let articles := match data with Some l => l | None => [] end in
            Ret (Some (corroborate (body content) query articles))))
        (fun m => console_warn ("NewsAPI error: " +:+ m) ;;; Ret None).

End NewsApi.

(** ** What an analyzer returns *)

Module Signal.

(** The fields an analyzer adds to [level], [score] and [explanation]. *)
Inductive Details : Type :=
| NoDetails
| SyntheticDetails (syntheticProbability : Z)
| SourcingDetails (namedSources anonymousClaims externalLinks : Z)
                  (namedEntities : list string)
| LinguisticDetails (emotionalIntensity : Q)
                    (certaintyWithoutEvidence narrativeTropes : Z)
                    (sentiment : option (string * gmap string Q))
| TemporalDetails (corroboration : option NewsApi.Corroboration).

Record SignalResult : Type :=
  { level : Level;
    score : Z;
    explanation : string;
    modelUsed : option bool;      (* absent on some paths *)
    details : Details }.

(** [text.split(/[.!?]+/).filter(s => s.trim().length > n)] *)
Definition sentencesLongerThan (n : nat) (text : string) : list string :=
  List.filter (fun s => (n <? String.length (Js.trim s))%nat)
              (Regex.split (Regex.re "[.!?]+") text).

(** [text.split(/\s+/).length] *)
Definition wordCount (text : string) : Z :=
  Z.of_nat (length (Regex.split (Regex.re "\s+") text)).

Definition len {A : Type} (xs : list A) : Z := Z.of_nat (length xs).

(** [n !== 1 ? 's' : ''] *)
Definition plural (n : Z) : string := if negb (n =? 1)%Z then "s" else "".

End Signal.

(** ** analyzers/syntheticText.js *)

Module SyntheticText.
Import Net Signal.
Local Open Scope Q_scope.
Local Open Scope prog_scope.

Definition LLM_PHRASES : list string :=
  ["it's important to note"; "it is important to"; "it's worth noting";
   "it is worth mentioning"; "in conclusion"; "in summary"; "to summarize";
   "overall,"; "in today's world"; "in this day and age"; "let's dive in";
   "delve into"; "delve deeper"; "it's crucial to"; "plays a crucial role";
   "navigating the"; "landscape of"; "tapestry of"; "multifaceted"; "a myriad of";
   "furthermore,"; "moreover,"; "additionally,"; "consequently,"; "nevertheless,";
   "comprehensive guide"; "whether you're a"; "in the realm of";
   "shed light on"; "foster a sense of"; "embark on";
   "stands as a testament"; "serves as a reminder"; "underscores the importance"].

Definition transitions : list string :=
  ["however"; "therefore"; "furthermore"; "moreover"; "additionally";
   "consequently"; "nevertheless"].

(** The occurrences of every phrase of a list, summed. *)
Definition occurrences (phrases : list string) (lower : string) : Z :=
  fold_left (fun n phrase => (n + Z.of_nat (Js.countOccurrences lower phrase))%Z)
            phrases 0%Z.

Definition Qsum (xs : list Q) : Q := fold_left Qplus xs 0.

(** [x || 1] *)
Definition orOne (x : Q) : Q := if Qeq_bool x 0 then 1 else x.

(** [Math.sqrt(variance) / avg' < c] for [avg' > 0] and [c > 0], with
    both sides squared. *)
Definition cvBelow (variance avg' c : Q) : bool :=
  Qltb variance ((c * avg') * (c * avg')).

Definition heuristicSyntheticScore (text : string) : Q :=
  let lower := Js.toLowerCase text in
  let sentences := sentencesLongerThan 5 lower in
  if (len sentences <? 3)%Z then 0
  else
    let n := inject_Z (len sentences) in
    let signals := 0%Z in
    (* LLM phrase density *)
    let phraseMatches := occurrences LLM_PHRASES lower in
    let phraseDensity := inject_Z phraseMatches / n in
    let signals :=
      if Qgtb phraseDensity (15 # 100) then (signals + 3)%Z
      else if Qgtb phraseDensity (5 # 100) then (signals + 1)%Z
      else signals in
    (* Sentence length uniformity *)
    let sentLengths := List.map (fun s => inject_Z (wordCount (Js.trim s))) sentences in
    let avg := Qsum sentLengths / n in
    let variance := Qsum (List.map (fun l => (l - avg) * (l - avg)) sentLengths) / n in
    let signals :=
      if (cvBelow variance (orOne avg) (25 # 100) && (5 <? len sentences)%Z)%bool
      then (signals + 2)%Z
      else if (cvBelow variance (orOne avg) (35 # 100) && (5 <? len sentences)%Z)%bool
      then (signals + 1)%Z
      else signals in
    (* Type-token ratio *)
    let words := Regex.matchAll (Regex.re_g "\b[a-z]+\b") lower in
    let ttr := inject_Z (MlClient.distinct words) / orOne (inject_Z (len words)) in
    let signals :=
      if ((100 <? len words)%Z && Qgtb ttr (35 # 100) && Qltb ttr (55 # 100))%bool
      then (signals + 1)%Z else signals in
    (* Transitions *)
    let transCount := occurrences transitions lower in
    let transDensity := inject_Z transCount / orOne n in
    let signals :=
      if Qgtb transDensity (2 # 10) then (signals + 2)%Z
      else if Qgtb transDensity (1 # 10) then (signals + 1)%Z
      else signals in
    Qmin (inject_Z signals / 9) 1.

Definition mlSyntheticScore (env : Env) (text : string) : Prog (option Q) :=
  MlClient.detectSynthetic env text.

Definition canned : SignalResult :=
  {| level := low;
     score := 10;
     explanation := "Text is too short for meaningful synthetic pattern analysis.";
     modelUsed := Some false;
     details := NoDetails |}.

(** What [analyzeSyntheticText] computes once the model has answered. *)
Definition assess (heuristicRaw : Q) (mlRaw : option Q) : SignalResult :=
  let modelUsed := match mlRaw with Some _ => true | None => false end in
  (* Combine: 70% model / 30% heuristic when model available *)
  let combined :=
    match mlRaw with
    | Some mlRaw => mlRaw * (7 # 10) + heuristicRaw * (3 # 10)
    | None => heuristicRaw
    end in
  let score := Js.round (combined * 100) in
  let level := if (60 <=? score)%Z then high
               else if (30 <=? score)%Z then medium else low in
  let source := if modelUsed
                then "RoBERTa classifier (roberta-base-openai-detector)"
                else "heuristic analysis (ML service unavailable)" in
  let explanation :=
    match level with
    | low => "Text patterns are consistent with human writing. Assessed using " +:+ source +:+ "."
    | medium => "Some patterns resemble LLM-generated content ("
                +:+ Js.show (Js.round (combined * 100))
                +:+ "% synthetic probability). Assessed using " +:+ source +:+ "."
    | high => "Strong indicators suggest this text may be AI-generated ("
              +:+ Js.show (Js.round (combined * 100))
              +:+ "% synthetic probability). Assessed using " +:+ source +:+ "."
    end in
  {| level := level;
     score := score;
     explanation := explanation;
     modelUsed := Some modelUsed;
     details := SyntheticDetails (Js.round (combined * 100)) |}.

Definition analyzeSyntheticText (env : Env) (content : Content) : Prog SignalResult :=
  let text := body content in
  let sentences := sentencesLongerThan 5 text in
  if (len sentences <? 3)%Z then Ret canned
  else
    let heuristicRaw := heuristicSyntheticScore text in
    mlRaw <- mlSyntheticScore env text ;;
    Ret (assess heuristicRaw mlRaw).

End SyntheticText.

(** ** analyzers/sourcing.js *)

Module Sourcing.
Import Net Signal.
Local Open Scope Z_scope.
Local Open Scope prog_scope.

Definition ATTRIBUTION_PATTERNS : list Regex.RegExp :=
  List.map Regex.re_g
    ["according to ([A-Z][a-zA-Z\s]+)";
     "(?:said|stated|reported|confirmed|announced|disclosed|revealed) (?:by )?([A-Z][a-zA-Z\s]+)";
     "(?:study|report|analysis|investigation|research) (?:by|from|conducted by) ([A-Z][a-zA-Z\s]+)";
     "([A-Z][a-zA-Z]+(?:\s[A-Z][a-zA-Z]+)+),?\s+(?:a |the )?(?:professor|researcher|analyst|expert|director|spokesperson|official)"].

Definition ANONYMOUS_PATTERNS : list Regex.RegExp :=
  List.map Regex.re_gi
    ["sources?\s+(?:say|said|claim|report|indicate|suggest|familiar with)";
     "(?:unnamed|anonymous|undisclosed)\s+sources?";
     "people?\s+(?:close to|familiar with|with knowledge of|briefed on)";
     "(?:experts?|officials?|insiders?|analysts?)\s+(?:say|said|believe|warn|predict|suggest)";
     "(?:it is|it's)\s+(?:believed|thought|rumored|said|reported)\s+that";
     "(?:many|some|several)\s+(?:people|experts|analysts|observers)\s+(?:say|believe|think)"].

Definition CLAIM_INDICATORS : list Regex.RegExp :=
  List.map Regex.re_gi
    ["(?:will|would|could|should|might)\s+(?:cause|lead to|result in|create|destroy|change)";
     "(?:always|never|every|all|none)\s+";
     "(?:proven|confirmed|debunked|exposed|revealed)\s+(?:that|to)";
     "(?:studies show|research shows|science says|data shows|evidence shows)"].

(** [for (const p of patterns) for (const _ of text.matchAll(p)) n++] *)
Definition countMatches (patterns : list Regex.RegExp) (text : string) : Z :=
  fold_left (fun n p => n + Regex.count p text) patterns 0.

Definition regexSourceCount (text : string) : Z := countMatches ATTRIBUTION_PATTERNS text.
Definition regexAnonCount (text : string) : Z := countMatches ANONYMOUS_PATTERNS text.
Definition claimCount (text : string) : Z := countMatches CLAIM_INDICATORS text.

Definition mlEntityData (env : Env) (text : string) : Prog (option MlClient.EntityData) :=
  MlClient.analyzeEntities env text.

Definition canned : SignalResult :=
  {| level := medium;
     score := 50;
     explanation := "Text is too short to meaningfully assess sourcing patterns.";
     modelUsed := None;
     details := NoDetails |}.

(** [[...new Set(xs)]]: the distinct elements, in the order each first
    occurs. *)
Fixpoint uniq (seen : gset string) (xs : list string) : list string :=
  match xs with
  | [] => []
  | x :: rest =>
      if bool_decide (x ∈ seen) then uniq seen rest
      else x :: uniq (seen ∪ {[ x ]}) rest
  end.

(** The score calculation. *)
Definition sourcingScore (namedSources anonClaims unattributed links : Z)
           (author : string) : Z :=
  let score := 50 in
  let score := score - Z.min (namedSources * 8) 30 in
  let score := score + Z.min (anonClaims * 5) 15 in
  let score := score + Z.min (unattributed * 3) 20 in
  let score := score - Z.min (links * 3) 10 in
  let score := if Js.truthy author then score - 5 else score in
  Z.max 5 (Z.min 95 score).

Definition sourcingLevel (score : Z) : Level :=
  if 60 <=? score then high else if 35 <=? score then medium else low.

(** What [analyzeSourcing] computes once the NER model has answered. *)
Definition assess (content : Content) (mlEntities : option MlClient.EntityData)
  : SignalResult :=
  let text := body content in
  let anonClaims := regexAnonCount text in
  let unattributed := claimCount text in
  let links := Regex.count (Regex.re_g "https?:\/\/[^\s)>]+") text in
  let modelUsed := match mlEntities with Some _ => true | None => false end in
  (* Named sources: NER persons + orgs (ML) or regex fallback *)
  let namedSources :=
    match mlEntities with
    | Some e => MlClient.person_count e + MlClient.org_count e
    | None => regexSourceCount text
    end in
  (* Unique named entities for explanation *)
  let uniqueNames :=
    match mlEntities with
    | Some e =>
        uniq ∅ (List.map MlClient.word
                  (List.filter
                     (fun e => String.eqb (MlClient.entity_group e) "PER"
                               || String.eqb (MlClient.entity_group e) "ORG")
                     (MlClient.entities e)))
    | None => []
    end in
  let score := sourcingScore namedSources anonClaims unattributed links (author content) in
  let level := sourcingLevel score in
  let source := if modelUsed then "bert-base-NER" else "pattern matching (ML unavailable)" in
  let explanation :=
    match level with
    | low =>
        "Strong sourcing: " +:+ Js.show namedSources +:+ " named entity"
        +:+ (if negb (namedSources =? 1) then "ies" else "y") +:+ " identified"
        +:+ (if 0 <? len uniqueNames
             then " (" +:+ Js.join ", " (firstn 3 uniqueNames) +:+ ")" else "")
        +:+ " with " +:+ Js.show links +:+ " external link" +:+ plural links
        +:+ ". Assessed via " +:+ source +:+ "."
    | medium =>
        "Limited sourcing: " +:+ Js.show namedSources +:+ " named source"
        +:+ plural namedSources +:+ " vs " +:+ Js.show (anonClaims + unattributed)
        +:+ " unsupported or anonymous claim" +:+ plural (anonClaims + unattributed)
        +:+ ". Assessed via " +:+ source +:+ "."
    | high =>
        "Weak sourcing: "
        +:+ (if 0 <? anonClaims
             then Js.show anonClaims +:+ " anonymous reference" +:+ plural anonClaims +:+ ". "
             else "")
        +:+ "Claims lack clear attribution to named, verifiable sources. Assessed via "
        +:+ source +:+ "."
    end in
  {| level := level;
     score := score;
     explanation := explanation;
     modelUsed := Some modelUsed;
     details := SourcingDetails namedSources anonClaims links (firstn 6 uniqueNames) |}.

Definition analyzeSourcing (env : Env) (content : Content) : Prog SignalResult :=
  let text := body content in
  let sentences := sentencesLongerThan 10 text in
  if len sentences <? 2 then Ret canned
  else
    mlEntities <- mlEntityData env text ;;
    Ret (assess content mlEntities).

End Sourcing.

(** ** analyzers/linguistic.js *)

Module Linguistic.
Import Net Signal.
Local Open Scope Z_scope.
Local Open Scope prog_scope.

Definition EMOTIONAL_INTENSIFIERS : list string :=
  ["shocking"; "outrageous"; "horrifying"; "terrifying"; "unbelievable"; "incredible";
   "amazing"; "devastating"; "explosive"; "bombshell"; "disgusting"; "sickening";
   "insane"; "crazy"; "mindblowing"; "mind-blowing"; "jaw-dropping"; "earth-shattering";
   "catastrophic"; "apocalyptic"; "nightmare"; "disaster"; "crisis"; "emergency";
   "urgent"; "warning"; "danger"; "alarming"].

Definition CERTAINTY_WITHOUT_EVIDENCE : list string :=
  ["undeniable"; "undeniably"; "irrefutable"; "irrefutably"; "proven beyond doubt";
   "without question"; "no doubt"; "absolutely certain"; "definitely"; "guaranteed";
   "the truth is"; "the fact is"; "the reality is"; "everyone knows"; "it's obvious";
   "obviously"; "clearly"; "unquestionably"; "indisputably"; "beyond any doubt";
   "without a doubt"; "100%"; "impossible"; "literally impossible"].

Definition MISINFO_TROPES : list string :=
  ["they don't want you to know"; "what they're not telling you";
   "the media won't report"; "mainstream media"; "msm"; "the government doesn't want";
   "big pharma"; "follow the money"; "wake up"; "sheeple"; "do your own research";
   "exposed"; "cover-up"; "cover up"; "suppressed"; "the real story"; "hidden truth";
   "secret agenda"; "conspiracy"; "deep state"; "controlled opposition"; "false flag";
   "plandemic"; "hoax"; "scam"; "psyop"; "propaganda"; "brainwashed";
   "just asking questions"; "think about it"; "open your eyes"; "connect the dots"].

Definition ACRONYMS : list string :=
  ["URL"; "HTML"; "API"; "USA"; "FBI"; "CIA"; "CEO"; "NASA"; "UN"; "EU"; "UK"; "WHO";
   "GDP"; "DNA"; "COVID"; "NYC"; "NFL"; "NBA"].

Record Heuristics : Type :=
  { emotionalIntensity : Q; certaintyHits : Z; tropeHits : Z; sentences : Z }.

(** [for (const p of phrases) if (lower.includes(p)) n++] *)
Definition phrasesIncluded (phrases : list string) (lower : string) : Z :=
  fold_left (fun n p => if Js.includes lower p then n + 1 else n) phrases 0.

Definition heuristicSignals (text : string) : Heuristics :=
  let lower := Js.toLowerCase text in
  let sentences := sentencesLongerThan 5 text in
  let emotionalHits :=
    fold_left
      (fun n w => n + Regex.count (Regex.re_g ("\b" +:+ w +:+ "\b")) lower)
      EMOTIONAL_INTENSIFIERS 0 in
  let exclamations := Regex.count (Regex.re_g "!") text in
  let capsWords :=
    len (List.filter (fun w => negb (existsb (String.eqb w) ACRONYMS))
                     (Regex.matchAll (Regex.re_g "\b[A-Z]{3,}\b") text)) in
  let emotionalIntensity :=
    (inject_Z (emotionalHits * 2 + exclamations + capsWords)
     / SyntheticText.orOne (inject_Z (len sentences)))%Q in
  let certaintyHits := phrasesIncluded CERTAINTY_WITHOUT_EVIDENCE lower in
  let tropeHits := phrasesIncluded MISINFO_TROPES lower in
  {| emotionalIntensity := emotionalIntensity;
     certaintyHits := certaintyHits;
     tropeHits := tropeHits;
     sentences := len sentences |}.

Definition mlSentiment (env : Env) (text : string) : Prog (option MlClient.Sentiment) :=
  MlClient.analyzeSentiment env text.

Definition canned : SignalResult :=
  {| level := low;
     score := 15;
     explanation := "Text is too short for meaningful linguistic risk analysis.";
     modelUsed := None;
     details := NoDetails |}.

(** [sentiment.scores['negative']], a number or undefined. *)
Definition negative (s : MlClient.Sentiment) : option Q :=
  MlClient.s_scores s !! "negative".

(** [x > c] for [x] a number or undefined. *)
Definition above (x : option Q) (c : Q) : bool :=
  match x with Some q => Qgtb q c | None => false end.

(** [parts.push(p)] when [b] holds. *)
Definition pushIf (b : bool) (p : string) (parts : list string) : list string :=
  if b then (parts ++ [p])%list else parts.

(** What [analyzeLinguistic] computes once the sentiment model has
    answered. *)
Definition assess (text : string) (sentiment : option MlClient.Sentiment)
  : SignalResult :=
  let heuristics := heuristicSignals text in
  let modelUsed := match sentiment with Some _ => true | None => false end in
  let emotionalIntensity := emotionalIntensity heuristics in
  let certaintyHits := certaintyHits heuristics in
  let tropeHits := tropeHits heuristics in
  let sentences := sentences heuristics in
  let totalRisk := 0 in
  (* Sentiment model contribution (when available) *)
  let sentimentRisk :=
    match sentiment with
    | Some s =>
        (* [sentiment.scores['negative'] || 0] *)
        let negScore := match negative s with Some q => q | None => 0%Q end in
        if Qgtb negScore (7 # 10) then 3
        else if Qgtb negScore (5 # 10) then 2
        else if Qgtb negScore (3 # 10) then 1
        else 0
    | None => 0
    end in
  let totalRisk := totalRisk + sentimentRisk in
  (* Heuristic contributions (always) *)
  let totalRisk :=
    if Qgtb emotionalIntensity (5 # 10) then totalRisk + 3
    else if Qgtb emotionalIntensity (2 # 10) then totalRisk + 1
    else totalRisk in
  let certaintyDensity :=
    (inject_Z certaintyHits / SyntheticText.orOne (inject_Z sentences))%Q in
  let totalRisk :=
    if Qgtb certaintyDensity (15 # 100) then totalRisk + 3
    else if Qgtb certaintyDensity (5 # 100) then totalRisk + 1
    else totalRisk in
  let totalRisk :=
    if 3 <=? tropeHits then totalRisk + 3
    else if 1 <=? tropeHits then totalRisk + tropeHits
    else totalRisk in
  let maxRisk := if modelUsed then 12 else 10 in
  let score :=
    Z.max 5 (Z.min 95 (Js.round (inject_Z totalRisk / inject_Z maxRisk * 100)%Q)) in
  let level := if 55 <=? score then high else if 25 <=? score then medium else low in
  let source :=
    match sentiment with
    | Some s =>
        "twitter-roberta-base-sentiment (" +:+ MlClient.s_label s +:+ ", "
        +:+ Js.show (Js.round (MlClient.s_score s * 100)%Q) +:+ "% confidence)"
    | None => "heuristic analysis (ML unavailable)"
    end in
  let explanation :=
    match level with
    | low =>
        "Language appears measured and informational. "
        +:+ match sentiment with
            | Some s => "Sentiment model: " +:+ MlClient.s_label s +:+ ". "
            | None => ""
            end
        +:+ "No significant manipulation patterns detected."
    | medium =>
        let parts := [] in
        let parts := pushIf (Qgtb emotionalIntensity (2 # 10)) "elevated emotional language" parts in
        let parts := pushIf (0 <? certaintyHits) "certainty claims without cited evidence" parts in
        let parts := pushIf (0 <? tropeHits) "some misleading content patterns" parts in
        let parts :=
          pushIf (match sentiment with
                  | Some s => above (negative s) (5 # 10)
                  | None => false
                  end)
                 ("strongly negative sentiment (" +:+ source +:+ ")") parts in
        let joined := Js.join ", " parts in
        "Moderate linguistic risk: "
        +:+ (if Js.truthy joined then joined else "patterns warrant attention") +:+ "."
    | high =>
        let parts := [] in
        let parts := pushIf (2 <=? tropeHits)
                       (Js.show tropeHits +:+ " misinformation narrative patterns") parts in
        let parts := pushIf (2 <? certaintyHits) "multiple unsupported certainty claims" parts in
        let parts := pushIf (Qgtb emotionalIntensity (5 # 10)) "high emotional intensity" parts in
        let parts :=
          match sentiment with
          | Some s => (parts ++ ["sentiment: " +:+ MlClient.s_label s +:+ " (" +:+ source +:+ ")"])%list
          | None => parts
          end in
        "Significant linguistic risk: " +:+ Js.join "; " parts +:+ "."
    end in
  {| level := level;
     score := score;
     explanation := explanation;
     modelUsed := Some modelUsed;
     details :=
       LinguisticDetails
         (inject_Z (Js.round (emotionalIntensity * 100)%Q) / 100)%Q
         certaintyHits tropeHits
         match sentiment with
         | Some s => Some (MlClient.s_label s, MlClient.s_scores s)
         | None => None
         end |}.

Definition analyzeLinguistic (env : Env) (content : Content) : Prog SignalResult :=
  let text := body content in
  let wordCount := wordCount text in
  if wordCount <? 15 then Ret canned
  else
    sentiment <- mlSentiment env text ;;
    Ret (assess text sentiment).

End Linguistic.

(** ** analyzers/temporal.js *)

Module Temporal.
Import Net Signal.
Local Open Scope Z_scope.
Local Open Scope prog_scope.

Definition URGENCY_PHRASES : list string :=
  ["breaking:"; "breaking news"; "just in:"; "just now"; "developing story";
   "developing:"; "this just happened"; "happening now"; "right now";
   "urgent:"; "urgent update"; "live update"; "live:"; "act now"; "act fast";
   "before it's too late"; "limited time"; "share before"; "going viral";
   "share this"; "spread the word"; "must read"; "you need to see this";
   "you won't believe"].

Definition CORROBORATION_SIGNALS : list Regex.RegExp :=
  [Regex.re_gi "according to (?:multiple|several|various) (?:sources|reports|outlets)";
   Regex.re_gi "(?:reuters|associated press|ap news|afp|bbc|npr|pbs)\s+(?:reports?|confirmed)";
   Regex.re_gi "independently (?:verified|confirmed|reported)";
   Regex.re_gi "(?:peer[- ]reviewed|published in|journal of)";
   Regex.re_gi "(?:official statement|press release|public record)";
   Regex.re_gi "(?:data from|statistics from|figures from)";
   Regex.re_g "https?:\/\/[^\s]+"].

Definition canned : SignalResult :=
  {| level := medium;
     score := 50;
     explanation := "Text is too short to assess temporal and contextual patterns.";
     modelUsed := None;
     details := NoDetails |}.

Definition hasDateInText (text : string) : bool :=
  Regex.test (Regex.re_i "\b(?:January|February|March|April|May|June|July|August|September|October|November|December)\s+\d{1,2}") text
  || Regex.test (Regex.re "\b\d{1,2}\/\d{1,2}\/\d{2,4}\b") text
  || Regex.test (Regex.re "\b\d{4}-\d{2}-\d{2}\b") text
  || Regex.test (Regex.re_i "\b(?:yesterday|today|last week|last month|this morning|this afternoon)\b") text.

(** The four internal checks: the risk they add up to and the notes they
    leave in [details]. *)
Definition internalChecks (content : Content) : Z * list string :=
  let text := body content in
  let lower := Js.toLowerCase text in
  let risk := 0 in
  let details := [] in
  (* 1. Urgency language *)
  let urgencyHits := Linguistic.phrasesIncluded URGENCY_PHRASES lower in
  let '(risk, details) :=
    if 3 <=? urgencyHits
    then (risk + 3, (details ++ ["Heavy urgency language (" +:+ Js.show urgencyHits +:+ " phrases)"])%list)
    else if 1 <=? urgencyHits
    then (risk + 1, (details ++ ["Some urgency language"])%list)
    else (risk, details) in
  (* 2. Date/timestamp presence *)
  let hasDateMeta := Js.truthy (date content) in
  let '(risk, details) :=
    if (negb hasDateMeta && negb (hasDateInText text))%bool
    then (risk + 1, (details ++ ["No dates or timestamps found"])%list)
    else (risk, details) in
  (* 3. Internal corroboration signals (links, multi-source phrasing) *)
  let internalCorroboration := Sourcing.countMatches CORROBORATION_SIGNALS text in
  let '(risk, details) :=
    if internalCorroboration =? 0
    then (risk + 2, (details ++ ["No corroboration signals in text"])%list)
    else if 3 <=? internalCorroboration then (risk - 1, details)
    else (risk, details) in
  (* 4. Share pressure *)
  if (Js.includes lower "before it gets deleted" || Js.includes lower "before they take it down"
      || Js.includes lower "screenshot this" || Js.includes lower "save this post")%bool
  then (risk + 2, (details ++ ["Pressure to share/save content urgently"])%list)
  else (risk, details).

(** What [analyzeTemporal] computes once the corroboration check has
    answered. *)
Definition assess (content : Content) (corroboration : option NewsApi.Corroboration)
  : SignalResult :=
  let '(risk, details) := internalChecks content in
  (* 5. External corroboration (NewsAPI) *)
  let '(risk, details, corroborationNote) :=
    match corroboration with
    | None =>
        (risk, details,
         "External corroboration check unavailable (no NewsAPI key configured).")
    | Some c =>
        if NewsApi.found c =? 0
        then (risk + 2, (details ++ ["No matching articles found in recent news"])%list,
              NewsApi.summary c)
        else if NewsApi.independentPhrasing c
        then (risk - 2, details, NewsApi.summary c)   (* strong positive signal *)
        else (risk + 1, details, NewsApi.summary c)
    end in
  let risk := Z.max 0 risk in
  let score := Z.max 5 (Z.min 95 (Js.round (inject_Z risk / 10 * 100)%Q)) in
  let level := if 55 <=? score then high else if 25 <=? score then medium else low in
  let explanation :=
    match level with
    | low => "Content has temporal context and corroboration signals. " +:+ corroborationNote
    | medium => Js.join ". " (firstn 2 details) +:+ ". " +:+ corroborationNote
    | high => "Elevated temporal risk: " +:+ Js.join ". " (firstn 3 details) +:+ ". "
              +:+ corroborationNote
    end in
  {| level := level;
     score := score;
     explanation := explanation;
     modelUsed := None;
     details := TemporalDetails corroboration |}.

Definition analyzeTemporal (env : Env) (content : Content) : Prog SignalResult :=
  let text := body content in
  let sentences := sentencesLongerThan 5 text in
  if len sentences <? 2 then Ret canned
  else
    corroboration <- NewsApi.checkCorroboration env content ;;
    Ret (assess content corroboration).

End Temporal.

(** ** analyzers/structural.js *)

Module Structural.
Import Net Signal.
Local Open Scope Z_scope.
Local Open Scope prog_scope.

Definition CLICKBAIT_PATTERNS : list Regex.RegExp :=
  List.map Regex.re_i
    ["you won'?t believe";
     "what happens next";
     "this (?:one|simple) trick";
     "doctors hate";
     "\d+ (?:things?|reasons?|ways?|facts?|secrets?) (?:you|that|about)";
     "the (?:real|shocking|surprising|disturbing) (?:truth|reason|story)";
     "(?:is|are) (?:actually|secretly|really)";
     "here'?s? (?:what|why|how)";
     "everything (?:you need|we know)";
     "this (?:changes|explains) everything"].

Definition SENSATIONAL_WORDS : list string :=
  ["shocking"; "bombshell"; "explosive"; "devastating"; "unbelievable";
   "insane"; "mind-blowing"; "jaw-dropping"; "epic"; "ultimate";
   "incredible"; "extraordinary"; "unprecedented"; "massive"; "huge";
   "stunned"; "slammed"; "destroyed"; "obliterated"; "annihilated";
   "blasted"; "rocked"; "ripped"; "torched"; "eviscerated"].

Definition TITLE_STOP_WORDS : list string :=
  ["this"; "that"; "with"; "from"; "have"; "been"; "they"; "their"; "about";
   "what"; "when"; "where"; "which"].

Definition canned : SignalResult :=
  {| level := medium;
     score := 50;
     explanation := "Text is too short to assess structural integrity.";
     modelUsed := None;
     details := NoDetails |}.

(** The ellipsis character, U+2026, as the bytes of the source file. *)
Definition ELLIPSIS : string := "…".

Definition countTrue (bs : list bool) : Z := len (List.filter (fun b => b) bs).

(** The six checks: the risk they add up to and the notes they leave in
    [details]. *)
Definition checks (content : Content) : Z * list string :=
  let text := body content in
  let title := title content in
  let lower := Js.toLowerCase text in
  let wordCount := wordCount text in
  let risk := 0 in
  let details := [] in
  (* 1. Headline-body alignment (if title exists) *)
  let '(risk, details) :=
    if (Js.truthy title && (5 <? String.length title)%nat)%bool then
      let titleWords :=
        List.filter
          (fun w => (3 <? String.length w)%nat && negb (existsb (String.eqb w) TITLE_STOP_WORDS))
          (Regex.split (Regex.re "\s+")
             (Regex.replace (Regex.re_g "[^a-z\s]") "" (Js.toLowerCase title))) in
      let bodyLower := lower in
      let overlap := len (List.filter (fun word => Js.includes bodyLower word) titleWords) in
      let alignment :=
        (if 0 <? len titleWords then inject_Z overlap / inject_Z (len titleWords) else 1)%Q in
      if Qltb alignment (3 # 10)
      then (risk + 2, (details ++ ["Headline has weak alignment with the body content — may be misleading or clickbait"])%list)
      else if Qltb alignment (5 # 10)
      then (risk + 1, (details ++ ["Moderate headline-body alignment gap"])%list)
      else (risk, details)
    else (risk, details) in
  (* 2. Clickbait headline patterns *)
  let titleLower := Js.toLowerCase title in
  let clickbaitHits :=
    len (List.filter
           (fun pattern => Regex.test pattern titleLower
                           || Regex.test pattern (Js.take 200 lower))
           CLICKBAIT_PATTERNS) in
  let '(risk, details) :=
    if 2 <=? clickbaitHits
    then (risk + 3, (details ++ ["Multiple clickbait framing patterns detected"])%list)
    else if clickbaitHits =? 1
    then (risk + 1, (details ++ ["Clickbait-style framing detected"])%list)
    else (risk, details) in
  (* 3. Sensational language in headline *)
  let sensationalInTitle := Linguistic.phrasesIncluded SENSATIONAL_WORDS titleLower in
  let '(risk, details) :=
    if 2 <=? sensationalInTitle
    then (risk + 2, (details ++ ["Headline uses highly sensational language"])%list)
    else if sensationalInTitle =? 1 then (risk + 1, details)
    else (risk, details) in
  (* 4. Question headline (engagement bait) *)
  let '(risk, details) :=
    if (Js.truthy title && Js.endsWith (Js.trim title) "?")%bool
    then (risk + 1, (details ++ ["Question headline — often used to imply claims without making them directly"])%list)
    else (risk, details) in
  (* 5. Truncation/incompleteness indicators *)
  let truncationSignals :=
    countTrue
      [Js.endsWith text "...";
       Js.endsWith text ELLIPSIS;
       Js.endsWith text "Read more";
       Js.endsWith text "Continue reading";
       Regex.test (Regex.re "\[\.{3}\]") text;
       (wordCount <? 50) && negb (Js.includes (source content) "twitter")
       && negb (Js.includes (source content) "x.com")] in
  let '(risk, details) :=
    if 2 <=? truncationSignals
    then (risk + 2, (details ++ ["Content appears truncated or incomplete — may be missing important context"])%list)
    else if truncationSignals =? 1 then (risk + 1, details)
    else (risk, details) in
  (* 6. ALL CAPS title *)
  if (Js.truthy title && String.eqb title (Js.toUpperCase title)
      && (10 <? String.length title)%nat)%bool
  then (risk + 1, (details ++ ["Title is in ALL CAPS — common in sensational or low-credibility framing"])%list)
  else (risk, details).

Definition assess (content : Content) : SignalResult :=
  let '(risk, details) := checks content in
  (* Calculate *)
  let score := Z.max 5 (Z.min 95 (Js.round (inject_Z risk / 10 * 100)%Q)) in
  let level := if 55 <=? score then high else if 25 <=? score then medium else low in
  let explanation :=
    match level with
    | low => "Content structure appears standard. Headline aligns with body content, and no significant sensational framing detected."
    | medium => Js.join ". " (firstn 2 details) +:+ "."
    | high => "Structural concerns: " +:+ Js.join ". " (firstn 3 details) +:+ "."
    end in
  {| level := level;
     score := score;
     explanation := explanation;
     modelUsed := None;
     details := NoDetails |}.

Definition analyzeStructural (content : Content) : Prog SignalResult :=
  let text := body content in
  let wordCount := wordCount text in
  if wordCount <? 10 then Ret canned else Ret (assess content).

End Structural.

(** ** aggregator.js: the aggregation layer *)

Module Aggregator.
Import Signal.
Local Open Scope Z_scope.

(** The five results, keyed by their fixed names. *)
Record Signals : Type :=
  { syntheticText : SignalResult;
    sourcing : SignalResult;
    linguistic : SignalResult;
    temporal : SignalResult;
    structural : SignalResult }.

Record Aggregation : Type :=
  { confidenceBand : Level;
    summary : string;
    uncertaintyStatement : string;
    suggestions : list string;
    disagreements : list string }.

Definition names : list string :=
  ["Synthetic Text"; "Sourcing"; "Linguistic Risk"; "Temporal"; "Structural"].

(** [levels.filter(l => l === lv).length] *)
Definition countLevel (lv : Level) (levels : list Level) : Z :=
  len (List.filter (Level_eqb lv) levels).

(** [levels.includes(lv)] *)
Definition includesLevel (lv : Level) (levels : list Level) : bool :=
  existsb (Level_eqb lv) levels.

(** The names pushed by [levels.forEach((level, i) => ...)] for one
    level. *)
Definition namesAt (lv : Level) (levels : list Level) : list string :=
  List.map snd (List.filter (fun p => Level_eqb (fst p) lv) (combine levels names)).

Definition notLow (s : SignalResult) : bool := negb (Level_eqb (level s) low).

Definition aggregate (signals : Signals) (content : Content) : Aggregation :=
  let allSignals := [syntheticText signals; sourcing signals; linguistic signals;
                     temporal signals; structural signals] in
  let scores := List.map score allSignals in
  let levels := List.map level allSignals in
  (* --- Confidence Band --- *)
  let highCount := countLevel high levels in
  let mediumCount := countLevel medium levels in
  let avgScore := (inject_Z (fold_left Z.add scores 0%Z) / inject_Z (len scores))%Q in
  let confidenceBand :=
    if ((3 <=? highCount) || Qgeb avgScore 65)%bool then high
    else if ((1 <=? highCount) || (3 <=? mediumCount) || Qgeb avgScore 35)%bool then medium
    else low in
  (* --- Disagreements --- *)
  let disagreements :=
    if (includesLevel high levels && includesLevel low levels)%bool then
      let highSignals := namesAt high levels in
      let lowSignals := namesAt low levels in
      if ((0 <? len highSignals) && (0 <? len lowSignals))%bool then
        [Js.join " and " highSignals +:+ " signal"
         +:+ (if 1 <? len highSignals then "s" else "") +:+ " high risk, while "
         +:+ Js.join " and " lowSignals +:+ " appear"
         +:+ (if len lowSignals =? 1 then "s" else "")
         +:+ " normal. This mixed picture means some aspects warrant scrutiny even though others look fine."]
      else []
    else [] in
  (* --- Summary --- *)
  let summary :=
    match confidenceBand with
    | low =>
        "This content's signal profile appears mostly normal across the dimensions we analyze. Sourcing, language patterns, structural framing, and other indicators don't raise significant flags. This doesn't mean the content is true — only that its surface characteristics are consistent with standard reporting or communication."
    | medium =>
        let concerns := [] in
        let concerns := Linguistic.pushIf (notLow (syntheticText signals)) "some patterns resembling generated text" concerns in
        let concerns := Linguistic.pushIf (notLow (sourcing signals)) "limited source attribution" concerns in
        let concerns := Linguistic.pushIf (notLow (linguistic signals)) "elevated emotional or certainty language" concerns in
        let concerns := Linguistic.pushIf (notLow (temporal signals)) "weak temporal context or corroboration" concerns in
        let concerns := Linguistic.pushIf (notLow (structural signals)) "structural framing concerns" concerns in
        "This content shows some signals that suggest caution: " +:+ Js.join ", " concerns
        +:+ ". These patterns don't prove anything is wrong, but they appear in content that sometimes turns out to be misleading, incomplete, or decontextualized. Additional verification would be worthwhile before acting on or sharing this content."
    | high =>
        let topConcerns :=
          firstn 2 (List.map explanation
                      (List.filter (fun s => Level_eqb (level s) high) allSignals)) in
        "Multiple credibility signals flag this content for careful evaluation. "
        +:+ Js.join " " topConcerns
        +:+ " These patterns frequently appear in content that is misleading, manipulative, or synthetic. This does not mean the claims are false — but the way they are presented warrants significant caution."
    end in
  (* --- Uncertainty Statement --- *)
  let uncertaintyStatement :=
    "This analysis examines content characteristics and surface-level patterns only. It cannot determine whether claims are true or false, nor can it assess the intent of the author. Signals are probabilistic estimates based on textual heuristics. Content that appears normal by these measures could still be misleading, and content that triggers warnings could be entirely accurate. Always apply your own judgment." in
  (* --- Suggestions --- *)
  let suggestions := [] in
  let suggestions := Linguistic.pushIf (notLow (sourcing signals)) "Look for the same story reported by multiple independent news organizations with their own sourcing" suggestions in
  let suggestions := Linguistic.pushIf (notLow (syntheticText signals)) "Check whether a named human author is associated with this content and has a verifiable track record" suggestions in
  let suggestions := Linguistic.pushIf (notLow (linguistic signals)) "Compare this content to coverage of the same topic that uses more measured language" suggestions in
  let suggestions := Linguistic.pushIf (notLow (temporal signals)) "Wait for the story to develop — initial reports are often incomplete or inaccurate" suggestions in
  let suggestions := Linguistic.pushIf (notLow (structural signals)) "Read beyond the headline — check if the body actually supports the framing" suggestions in
  let suggestions :=
    Linguistic.pushIf (negb (Js.truthy (source content)) || String.eqb (source content) "manual-paste")
      "Try to identify the original source of this content for better context" suggestions in
  let suggestions :=
    if len suggestions =? 0
    then ["Cross-reference claims with other reputable sources before sharing";
          "Consider the broader context and whether this content is complete"]
    else suggestions in
  {| confidenceBand := confidenceBand;
     summary := summary;
     uncertaintyStatement := uncertaintyStatement;
     suggestions := suggestions;
     disagreements := disagreements |}.

End Aggregator.

(** * Sample inputs

    Concrete environments, contents and scripted responses on which the
    properties below are exercised. *)

Module Samples.
Import Net.

Definition noKeys : Env := {| HF_TOKEN := ""; NEWS_API_KEY := "" |}.

(** What the route builds from pasted text. *)
Definition pasted (text : string) : Content :=
  {| title := ""; body := text; meta := ""; author := ""; date := "";
     source := "manual-paste"; platform := None |}.

(** Six words in three sentences. *)
Definition threeSentences : Content :=
  pasted "Hello there. Goodbye now. Whatever else.".

(** Two words, one sentence. *)
Definition tooShort : Content := pasted "Too short.".

(** No network at all: every [fetch] rejects. *)
Definition offline : script := fun k n req => Rejected "fetch failed".

Definition respond {k : kind} (st : Z) (b : option (payload k)) : FetchOutcome k :=
  Resolved {| status := st; res_body := b |}.

(** The answer of a sentiment model that names its classes by number. *)
Definition numbered : payload KClassification :=
  JArray [[{| label := "LABEL_0"; score := 9 # 10 |};
           {| label := "LABEL_1"; score := 7 # 100 |};
           {| label := "LABEL_2"; score := 3 # 100 |}]].

(** A model that is loading when first asked and answers when asked
    again. *)
Definition warmingUp : script :=
  fun k n req =>
    match k return FetchOutcome k with
    | KClassification =>
        match n with
        | O => respond (k := KClassification) 503 None
        | _ => respond (k := KClassification) 200 (Some numbered)
        end
    | _ => Rejected "fetch failed"
    end.

(** A model that answers at once. *)
Definition ready : script :=
  fun k n req =>
    match k return FetchOutcome k with
    | KClassification => respond (k := KClassification) 200 (Some numbered)
    | _ => Rejected "fetch failed"
    end.

(** A short report with a byline. *)
Definition report : Content :=
  {| title := "Council approves budget";
     body := "The council met on Tuesday to discuss the budget. Members voted after a long debate.";
     meta := "";
     author := "Jane Doe";
     date := "2024-05-01";
     source := "example.com";
     platform := None |}.


Definition article (t d name : string) : Article :=
  {| art_title := Some t; art_description := Some d;
     art_source_name := Some name; art_url := None |}.



Definition quiet (sc : Z) : Signal.SignalResult :=
  {| Signal.level := low; Signal.score := sc; Signal.explanation := "";
     Signal.modelUsed := None; Signal.details := Signal.NoDetails |}.

Definition allLow : Aggregator.Signals :=
  {| Aggregator.syntheticText := SyntheticText.canned;
     Aggregator.sourcing := quiet 29;
     Aggregator.linguistic := Linguistic.canned;
     Aggregator.temporal := quiet 20;
     Aggregator.structural := quiet 5 |}.

End Samples.

(** * The specification's vocabulary

    The notions the specification words its properties with, defined
    independently of the code above. *)

Module Spec.
Import Signal.

(** The five results in their fixed order. *)
Definition five (s : Aggregator.Signals) : list SignalResult :=
  [Aggregator.syntheticText s; Aggregator.sourcing s; Aggregator.linguistic s;
   Aggregator.temporal s; Aggregator.structural s].

Definition levels (s : Aggregator.Signals) : list Level := List.map level (five s).

(** How many of the five signals are at a level. *)
Definition howMany (lv : Level) (s : Aggregator.Signals) : nat :=
  count_occ Level_eq_dec (levels s) lv.

(** The mean of the five scores. *)
Definition meanScore (s : Aggregator.Signals) : Q :=
  inject_Z (score (Aggregator.syntheticText s) + score (Aggregator.sourcing s)
            + score (Aggregator.linguistic s) + score (Aggregator.temporal s)
            + score (Aggregator.structural s)) / 5.

(** "at least 3 of the 5 levels are high or the mean score is >= 65" *)
Definition highBand (s : Aggregator.Signals) : Prop :=
  (3 <= howMany high s)%nat \/ (65 <= meanScore s)%Q.

(** "at least 1 level is high, or at least 3 levels are medium, or the
    mean score is >= 35" *)
Definition mediumBand (s : Aggregator.Signals) : Prop :=
  (1 <= howMany high s)%nat \/ (3 <= howMany medium s)%nat \/ (35 <= meanScore s)%Q.

(** "the five levels contain both a high and a low" *)
Definition mixed (s : Aggregator.Signals) : Prop :=
  In high (levels s) /\ In low (levels s).






(** The one answer on which the sentiment wrapper throws: the world gave
    a classification request an array that carries no label. *)
Definition noLabels {W : Type} (h : Net.world W) : Prop :=
  exists req w0 w1 res items,
    h _ (Net.Fetch Net.KClassification req) w0 = (Net.Resolved res, w1)
    /\ Net.res_body res = Some (Net.JArray items)
    /\ match items with l0 :: _ => l0 | [] => [] end = [].

(** "[modelUsed ? 0.7·model + 0.3·heuristic : heuristic]" *)
Definition combined (heuristic : Q) (model : option Q) : Q :=
  match model with
  | Some m => (7 # 10) * m + (3 # 10) * heuristic
  | None => heuristic
  end.



(** The quantities the formula reads: the named sources are those of the
    NER model when it answered and those of the attribution patterns
    otherwise; the rest is counted on the body. *)
Definition namedSources (c : Content) (ml : option MlClient.EntityData) : Z :=
  match ml with
  | Some e => (MlClient.person_count e + MlClient.org_count e)%Z
  | None => Sourcing.regexSourceCount (body c)
  end.

Definition anonymousClaims (c : Content) : Z := Sourcing.regexAnonCount (body c).
Definition unattributedClaims (c : Content) : Z := Sourcing.claimCount (body c).
Definition links (c : Content) : Z :=
  Regex.count (Regex.re_g "https?:\/\/[^\s)>]+") (body c).


End Spec.

(** * Further code

    The loader of [.env] in [index.js], the rewriting of a Reddit address
    in [extractor.js], and the vocabulary of the further properties. *)

(** ** index.js: loading .env *)

Module Index.

(** [s.split(sep)] for a separator of one character. *)
Fixpoint splitOn (sep : ascii) (s : string) : list string :=
  match s with
  | EmptyString => [""]
  | String c s' =>
      if Ascii.eqb c sep then "" :: splitOn sep s'
      else match splitOn sep s' with
           | piece :: rest => String c piece :: rest
           | [] => [String c ""]
           end
  end.

(** [process.env]: the variables that are set.  [!process.env[key]] holds
    of a variable that is not set or is set to the empty string. *)
Definition unset (env : gmap string string) (key : string) : bool :=
  match env !! key with
  | Some v => negb (Js.truthy v)
  | None => true
  end.

(** One round of [for (const line of lines)]. *)
Definition loadLine (env : gmap string string) (line : string) : gmap string string :=
  let trimmed := Js.trim line in
  if (negb (Js.truthy trimmed) || Js.startsWith "#" trimmed)%bool then env
  else
    match splitOn "=" trimmed with
    | key :: rest =>
        let value := Js.trim (Js.join "=" rest) in
        if (Js.truthy key && Js.truthy value && unset env key)%bool
        then <[key := value]> env
        else env
    | [] => env
    end.

(** [loadEnv]; [file] is the content of [.env], [None] when the file does
    not exist. *)
Definition loadEnv (file : option string) (env : gmap string string)
  : gmap string string :=
  match file with
  | None => env
  | Some content => fold_left loadLine (splitOn "010" content) env
  end.

(** A line that assigns nothing: blank, or a comment. *)
Definition skipped (line : string) : bool :=
  (negb (Js.truthy (Js.trim line)) || Js.startsWith "#" (Js.trim line))%bool.

End Index.

(** ** extractor.js: the JSON address of a Reddit post *)

Module Extractor.

(** [s.replace(/\/$/, '')] *)
Definition dropTrailingSlash (s : string) : string :=
  if Js.endsWith s "/" then Js.take (String.length s - 1) s else s.

(** The address [extractReddit] fetches, from [parsed.href]. *)
Definition redditJsonUrl (href : string) : string :=
  let jsonUrl := href in
  (* Ensure .json suffix *)
  let jsonUrl := dropTrailingSlash jsonUrl +:+ ".json" in
  (* Prefer old.reddit for more reliable JSON *)
  Js.replaceFirst (Js.replaceFirst jsonUrl "www.reddit.com" "old.reddit.com")
    "reddit.com" "old.reddit.com".

End Extractor.

(** ** The vocabulary of the further properties *)

Module More.
Import Net Signal.

(** The level the cutoffs [hi] and [mid] give a score. *)
Definition levelBy (hi mid : Z) (score : Z) : Level :=
  if (hi <=? score)%Z then high else if (mid <=? score)%Z then medium else low.

(** The requests a run left in its log. *)
Definition requests (log : list obs) : nat :=
  length (List.filter (fun o => match o with OFetch _ => true | _ => false end) log).

(** [sends n p]: on no path does [p] call [fetch] more than [n] times. *)
Inductive sends {A : Type} : nat -> Prog A -> Prop :=
| sends_ret n a : sends n (Ret a)
| sends_throw n m : sends n (Throw m)
| sends_fetch n k req cont :
    (forall o, sends n (cont o)) -> sends (S n) (Vis (Fetch k req) cont)
| sends_timer n ms cont :
    (forall x, sends n (cont x)) -> sends n (Vis (SetTimeout ms) cont)
| sends_warn n msg cont :
    (forall x, sends n (cont x)) -> sends n (Vis (ConsoleWarn msg) cont).

(** The two fallback suggestions of the aggregator. *)
Definition fallbackSuggestions : list string :=
  ["Cross-reference claims with other reputable sources before sharing";
   "Consider the broader context and whether this content is complete"].

(** The words of the entities of a group, as the NER wrapper groups them. *)
Definition wordsOf (group : string) (raws : list RawEntity) : list string :=
  List.map raw_word
    (List.filter (fun e => String.eqb (MlClient.entityGroup e) group) raws).

(** A corroboration result as the three verdicts of the temporal analyzer
    read it. *)
Definition verdict (found : Z) (independent : bool) : NewsApi.Corroboration :=
  {| NewsApi.found := found; NewsApi.sources := []; NewsApi.uniqueSourceCount := 0;
     NewsApi.independentPhrasing := independent; NewsApi.query := None;
     NewsApi.summary := "" |}.

End More.

(** * Properties *)

(** ** The aggregator *)

Section AggregatorFacts.
Import Signal Aggregator.

Lemma countLevel_count_occ (lv : Level) (ls : list Level) :
  countLevel lv ls = Z.of_nat (count_occ Level_eq_dec ls lv).
Proof.
  unfold countLevel, len.
  induction ls as [|l ls IH]; [reflexivity|].
  cbn [List.filter count_occ].
  destruct (Level_eq_dec l lv) as [->|Hne].
  - replace (Level_eqb lv lv) with true by (destruct lv; reflexivity).
    cbn [length]. lia.
  - replace (Level_eqb lv l) with false
      by (destruct lv, l; try reflexivity; congruence).
    exact IH.
Qed.

Lemma includesLevel_In (lv : Level) (ls : list Level) :
  includesLevel lv ls = true <-> In lv ls.
Proof.
  unfold includesLevel. rewrite existsb_exists. split.
  - intros [x [Hin Heq]]. destruct lv, x; try discriminate; exact Hin.
  - intros Hin. exists lv. split; [exact Hin | destruct lv; reflexivity].
Qed.

(** The mean of five integers is at least [n] exactly when their sum is
    at least [5 n]. *)
Lemma mean_ge (n total : Z) :
  Qgeb (inject_Z total / inject_Z 5) (inject_Z n) = true <-> (5 * n <= total)%Z.
Proof.
  unfold Qgeb. rewrite Qle_bool_iff.
  unfold Qle, Qdiv, Qmult, Qinv, inject_Z. cbn. lia.
Qed.

Lemma meanScore_ge (n : Z) (s : Signals) :
  (inject_Z n <= Spec.meanScore s)%Q <->
  (5 * n <= score (syntheticText s) + score (sourcing s) + score (linguistic s)
            + score (temporal s) + score (structural s))%Z.
Proof.
  unfold Spec.meanScore, Qle, Qdiv, Qmult, Qinv, inject_Z. cbn. lia.
Qed.

(** The band the code computes, with the record and the text fields
    peeled off. *)
Lemma confidenceBand_unfold (s : Signals) (c : Content) :
  confidenceBand (aggregate s c) =
    let total := (score (syntheticText s) + score (sourcing s) + score (linguistic s)
                  + score (temporal s) + score (structural s))%Z in
    if ((3 <=? countLevel high (Spec.levels s))%Z
        || Qgeb (inject_Z total / inject_Z 5) (inject_Z 65))%bool then high
    else if ((1 <=? countLevel high (Spec.levels s))%Z
             || (3 <=? countLevel medium (Spec.levels s))%Z
             || Qgeb (inject_Z total / inject_Z 5) (inject_Z 35))%bool then medium
    else low.
Proof. reflexivity. Qed.

End AggregatorFacts.

Section ConfidenceBand.
Import Signal Aggregator.

(** The two tests of the band, as the specification words them. *)
Lemma highBand_decided (s : Signals) :
  let total := (score (syntheticText s) + score (sourcing s) + score (linguistic s)
                + score (temporal s) + score (structural s))%Z in
  ((3 <=? countLevel high (Spec.levels s))%Z
   || Qgeb (inject_Z total / inject_Z 5) (inject_Z 65))%bool = true
  <-> Spec.highBand s.
Proof.
  cbv zeta. unfold Spec.highBand, Spec.howMany.
  change (65%Q) with (inject_Z 65).
  rewrite orb_true_iff, Z.leb_le, mean_ge, meanScore_ge, countLevel_count_occ.
  lia.
Qed.

Lemma mediumBand_decided (s : Signals) :
  let total := (score (syntheticText s) + score (sourcing s) + score (linguistic s)
                + score (temporal s) + score (structural s))%Z in
  ((1 <=? countLevel high (Spec.levels s))%Z
   || (3 <=? countLevel medium (Spec.levels s))%Z
   || Qgeb (inject_Z total / inject_Z 5) (inject_Z 35))%bool = true
  <-> Spec.mediumBand s.
Proof.
  cbv zeta. unfold Spec.mediumBand, Spec.howMany.
  change (35%Q) with (inject_Z 35).
  rewrite !orb_true_iff, !Z.leb_le, mean_ge, meanScore_ge, !countLevel_count_occ.
  lia.
Qed.

(** C1. For every five signal results the band is high exactly when at
    least three levels are high or the mean score is at least 65;
    otherwise it is medium exactly when some level is high, or at least
    three are medium, or the mean score is at least 35; otherwise it is
    low. *)
Theorem aggregate_confidenceBand (s : Signals) (c : Content) :
  (confidenceBand (aggregate s c) = high <-> Spec.highBand s)
  /\ (confidenceBand (aggregate s c) = medium
      <-> ~ Spec.highBand s /\ Spec.mediumBand s)
  /\ (confidenceBand (aggregate s c) = low
      <-> ~ Spec.highBand s /\ ~ Spec.mediumBand s).
Proof.
  rewrite confidenceBand_unfold. cbv zeta.
  pose proof (highBand_decided s) as Hh.
  pose proof (mediumBand_decided s) as Hm.
  cbv zeta in Hh, Hm.
  destruct (_ || Qgeb _ (inject_Z 65))%bool.
  - assert (Spec.highBand s) by (apply Hh; reflexivity).
    repeat split; intros; try discriminate; tauto.
  - assert (~ Spec.highBand s) by (rewrite <- Hh; discriminate).
    destruct (_ || Qgeb _ (inject_Z 35))%bool.
    + assert (Spec.mediumBand s) by (apply Hm; reflexivity).
      repeat split; intros; try discriminate; tauto.
    + assert (~ Spec.mediumBand s) by (rewrite <- Hm; discriminate).
      repeat split; intros; try discriminate; tauto.
Qed.

End ConfidenceBand.

Section Disagreements.
Import Signal Aggregator.

(** Either the levels are mixed and the list holds one sentence, or they
    are not and the list is empty.  The list depends on the five levels
    only, so the cases are checked one by one. *)
Lemma disagreements_cases (s : Signals) (c : Content) :
  (Spec.mixed s /\ exists m, disagreements (aggregate s c) = [m])
  \/ (~ Spec.mixed s /\ disagreements (aggregate s c) = []).
Proof.
  destruct s as [[l1 ? ? ? ?] [l2 ? ? ? ?] [l3 ? ? ? ?] [l4 ? ? ? ?] [l5 ? ? ? ?]].
  unfold Spec.mixed, Spec.levels, Spec.five.
  cbn [List.map level syntheticText sourcing linguistic temporal structural].
  destruct l1, l2, l3, l4, l5;
    first [ left; split;
            [ split; cbn [In]; tauto
            | vm_compute; eexists; reflexivity ]
          | right; split;
            [ cbn [In]; intuition discriminate
            | vm_compute; reflexivity ] ].
Qed.

(** C10. The disagreements list holds at most one string: exactly one
    when the five levels contain both a high and a low, none otherwise. *)
Theorem aggregate_disagreements (s : Signals) (c : Content) :
  (length (disagreements (aggregate s c)) <= 1)%nat
  /\ (length (disagreements (aggregate s c)) = 1%nat <-> Spec.mixed s)
  /\ (disagreements (aggregate s c) = [] <-> ~ Spec.mixed s).
Proof.
  destruct (disagreements_cases s c) as [[Hmix [m Hm]] | [Hnot Hnil]].
  - rewrite Hm. cbn [length].
    split; [lia|]. split; [tauto|]. split; [discriminate | tauto].
  - rewrite Hnil. cbn [length].
    split; [lia|]. split; [|tauto]. split; [discriminate | tauto].
Qed.

(** C8. When all five results are low, each with a score below the medium
    cutoff of its analyzer, the band is low and no disagreement is
    reported. *)
Theorem aggregate_all_low (s : Signals) (c : Content) :
  level (syntheticText s) = low -> (score (syntheticText s) < 30)%Z ->
  level (sourcing s) = low -> (score (sourcing s) < 35)%Z ->
  level (linguistic s) = low -> (score (linguistic s) < 25)%Z ->
  level (temporal s) = low -> (score (temporal s) < 25)%Z ->
  level (structural s) = low -> (score (structural s) < 25)%Z ->
  confidenceBand (aggregate s c) = low /\ disagreements (aggregate s c) = [].
Proof.
  intros L1 S1 L2 S2 L3 S3 L4 S4 L5 S5.
  assert (Hlevels : Spec.levels s = [low; low; low; low; low]).
  { unfold Spec.levels, Spec.five. cbn [List.map]. congruence. }
  split.
  - rewrite confidenceBand_unfold. cbv zeta. rewrite Hlevels.
    change (countLevel high [low; low; low; low; low]) with 0%Z.
    change (countLevel medium [low; low; low; low; low]) with 0%Z.
    cbn [Z.leb Z.compare orb].
    destruct (Qgeb _ (inject_Z 65)) eqn:E65; [apply mean_ge in E65; lia|].
    destruct (Qgeb _ (inject_Z 35)) eqn:E35; [apply mean_ge in E35; lia|].
    reflexivity.
  - destruct (disagreements_cases s c) as [[[Hhigh _] _] | [_ Hnil]]; [|exact Hnil].
    rewrite Hlevels in Hhigh. cbn [In] in Hhigh. intuition discriminate.
Qed.

End Disagreements.

(** ** Running programs *)

Section ExecFacts.
Import Net.
Context {W : Type} (h : world W).

Lemma exec_bind {A B : Type} (p : Prog A) (f : A -> Prog B) (w : W) :
  exec h (bind p f) w =
    match exec h p w with
    | (Returned a, w') => exec h (f a) w'
    | (Threw m, w') => (Threw m, w')
    end.
Proof.
  revert w. induction p as [a | m | X e k IH]; intros w; cbn; try reflexivity.
  destruct (h X e w) as [x w']. apply IH.
Qed.

Lemma exec_try_catch {A : Type} (p : Prog A) (hd : string -> Prog A) (w : W) :
  exec h (try_catch p hd) w =
    match exec h p w with
    | (Returned a, w') => (Returned a, w')
    | (Threw m, w') => exec h (hd m) w'
    end.
Proof.
  revert w. induction p as [a | m | X e k IH]; intros w; cbn; try reflexivity.
  destruct (h X e w) as [x w']. apply IH.
Qed.

End ExecFacts.


(** ** The inference client *)

Section InferenceClient.
Import Net MlClient.
Context {k : kind} (env : Env) (model inputs : string).
Context {W : Type} (h : world W).

(** What one pass does in a world: a rejected [fetch] and a body that
    does not parse are caught; a 503 on the first pass arms the timer and
    hands over to the retry. *)
Lemma exec_hfInference_pass (retried : bool) (again : Prog (option (payload k))) (w : W) :
  exec h (hfInference_pass env model inputs retried again) w =
    match h _ (Fetch k (hfRequest env model inputs)) w with
    | (Rejected _, w1) => (Returned None, w1)
    | (Resolved res, w1) =>
        if ((status res =? 503)%Z && negb retried)%bool then
          let '(_, w2) := h _ (SetTimeout 10000) w1 in
          match exec h again w2 with
          | (Returned r, w3) => (Returned r, w3)
          | (Threw _, w3) => (Returned None, w3)
          end
        else if negb (ok res) then (Returned None, w1)
        else match res_body res with
             | Some j => (Returned (Some j), w1)
             | None => (Returned None, w1)
             end
    end.
Proof.
  unfold hfInference_pass. rewrite exec_try_catch, exec_bind.
  unfold fetch. cbn [exec].
  destruct (h _ (Fetch k (hfRequest env model inputs)) w) as [[m | res] w1];
    cbn [exec]; [reflexivity|].
  destruct ((status res =? 503)%Z && negb retried)%bool.
  - rewrite exec_bind. unfold sleep, trigger. cbn [exec].
    destruct (h _ (SetTimeout 10000) w1) as [[] w2]. cbn [exec].
    destruct (exec h again w2) as [[r | m] w3]; reflexivity.
  - destruct (negb (ok res)); cbn [exec]; [reflexivity|].
    rewrite exec_bind. unfold res_json.
    destruct (res_body res); reflexivity.
Qed.

(** The retried pass never calls again. *)
Lemma exec_hfInference_pass_retried (again : Prog (option (payload k))) (w : W) :
  exec h (hfInference_pass env model inputs true again) w =
    match h _ (Fetch k (hfRequest env model inputs)) w with
    | (Rejected _, w1) => (Returned None, w1)
    | (Resolved res, w1) =>
        if negb (ok res) then (Returned None, w1)
        else match res_body res with
             | Some j => (Returned (Some j), w1)
             | None => (Returned None, w1)
             end
    end.
Proof.
  rewrite exec_hfInference_pass.
  destruct (h _ (Fetch k (hfRequest env model inputs)) w) as [[m | res] w1];
    [reflexivity|].
  rewrite andb_false_r. reflexivity.
Qed.

Lemma exec_hfInference_retried (w : W) :
  exec h (hfInference (k := k) env model inputs true) w =
    match h _ (Fetch k (hfRequest env model inputs)) w with
    | (Rejected _, w1) => (Returned None, w1)
    | (Resolved res, w1) =>
        if negb (ok res) then (Returned None, w1)
        else match res_body res with
             | Some j => (Returned (Some j), w1)
             | None => (Returned None, w1)
             end
    end.
Proof. apply exec_hfInference_pass_retried. Qed.

(** The recursive equation of the source, read in any world. *)
Lemma exec_hfInference_unfold (retried : bool) (w : W) :
  exec h (hfInference (k := k) env model inputs retried) w =
    exec h (hfInference_pass env model inputs retried
              (hfInference env model inputs true)) w.
Proof.
  unfold hfInference at 1. rewrite !exec_hfInference_pass.
  destruct (h _ (Fetch k (hfRequest env model inputs)) w) as [[m | res] w1];
    [reflexivity|].
  destruct ((status res =? 503)%Z && negb retried)%bool; [|reflexivity].
  destruct (h _ (SetTimeout 10000) w1) as [[] w2].
  rewrite exec_hfInference_retried, exec_hfInference_pass_retried.
  reflexivity.
Qed.

(** [hfInference] returns in every world, and what it returns is null or
    the parsed body of a response the world gave to its request. *)
Lemma hfInference_returns (retried : bool) (w : W) :
  exists r w',
    exec h (hfInference (k := k) env model inputs retried) w = (Returned r, w')
    /\ forall j, r = Some j ->
         exists w0 w1 res,
           h _ (Fetch k (hfRequest env model inputs)) w0 = (Resolved res, w1)
           /\ res_body res = Some j.
Proof.
  assert (Hretry : forall w,
    exists r w',
      exec h (hfInference (k := k) env model inputs true) w = (Returned r, w')
      /\ forall j, r = Some j ->
           exists w0 w1 res,
             h _ (Fetch k (hfRequest env model inputs)) w0 = (Resolved res, w1)
             /\ res_body res = Some j).
  { intros v. rewrite exec_hfInference_retried.
    destruct (h _ (Fetch k (hfRequest env model inputs)) v) as [[m | res] v1] eqn:E.
    - exists None, v1. split; [reflexivity | discriminate].
    - destruct (negb (ok res)).
      + exists None, v1. split; [reflexivity | discriminate].
      + destruct (res_body res) as [j|] eqn:Ej.
        * exists (Some j), v1. split; [reflexivity|].
          intros j' [= <-]. exists v, v1, res. split; assumption.
        * exists None, v1. split; [reflexivity | discriminate]. }
  rewrite exec_hfInference_unfold, exec_hfInference_pass.
  destruct (h _ (Fetch k (hfRequest env model inputs)) w) as [[m | res] w1] eqn:E.
  - exists None, w1. split; [reflexivity | discriminate].
  - destruct ((status res =? 503)%Z && negb retried)%bool.
    + destruct (h _ (SetTimeout 10000) w1) as [[] w2].
      destruct (Hretry w2) as (r & w3 & Hex & Hprov).
      rewrite Hex. exists r, w3. split; [reflexivity | exact Hprov].
    + destruct (negb (ok res)).
      * exists None, w1. split; [reflexivity | discriminate].
      * destruct (res_body res) as [j|] eqn:Ej.
        -- exists (Some j), w1. split; [reflexivity|].
           intros j' [= <-]. exists w, w1, res. split; assumption.
        -- exists None, w1. split; [reflexivity | discriminate].
Qed.

End InferenceClient.

Section InferenceContract.
Import Net MlClient.
Context {k : kind} (env : Env) (model inputs : string).

(** The run of [hfInference] against a script, by the answers to the
    first call of [fetch] and, after a 503, to the second. *)
Lemma run_hfInference (sc : script) :
  let req := hfRequest env model inputs in
  run sc (hfInference (k := k) env model inputs false) =
    match sc k 0%nat req with
    | Rejected _ => (Returned None, [OFetch req])
    | Resolved r1 =>
        if (status r1 =? 503)%Z then
          match sc k 1%nat req with
          | Rejected _ => (Returned None, [OFetch req; OTimer 10000; OFetch req])
          | Resolved r2 =>
              (if negb (ok r2) then Returned None
               else match res_body r2 with
                    | Some j => Returned (Some j)
                    | None => Returned None
                    end,
               [OFetch req; OTimer 10000; OFetch req])
          end
        else
          (if negb (ok r1) then Returned None
           else match res_body r1 with
                | Some j => Returned (Some j)
                | None => Returned None
                end,
           [OFetch req])
    end.
Proof.
  cbv zeta. unfold run.
  rewrite exec_hfInference_unfold, exec_hfInference_pass.
  cbn [scripted app].
  destruct (sc k 0%nat (hfRequest env model inputs)) as [m | r1]; [reflexivity|].
  rewrite andb_true_r.
  destruct (status r1 =? 503)%Z.
  - rewrite exec_hfInference_retried. cbn [scripted app].
    destruct (sc k 1%nat (hfRequest env model inputs)) as [m | r2]; [reflexivity|].
    destruct (negb (ok r2)); [reflexivity|].
    destruct (res_body r2); reflexivity.
  - destruct (negb (ok r1)); [reflexivity|].
    destruct (res_body r1); reflexivity.
Qed.

(** A response with status 503 is not a success. *)
Lemma not_ok_503 (r : Response k) : status r = 503%Z -> ok r = false.
Proof. unfold ok. intros ->. reflexivity. Qed.

Lemma ok_200 (r : Response k) : status r = 200%Z -> ok r = true.
Proof. unfold ok. intros ->. reflexivity. Qed.

(** C4. [hfInference] never throws.  A 503 is retried exactly once, after
    the 10 s timer: a 503 followed by a 200 yields the parsed body of the
    second response, two 503s yield null.  Any other failure (a rejected
    [fetch], a status that is not a success, a body that does not parse),
    on the first call or on the retry, yields null. *)
Theorem hfInference_contract (sc : script) :
  let req := hfRequest env model inputs in
  let p := hfInference (k := k) env model inputs false in
  (forall (W : Type) (h : world W) (w : W),
      exists r w', exec h p w = (Returned r, w'))
  /\ (forall r1 r2 j,
        sc k 0%nat req = Resolved r1 -> status r1 = 503%Z ->
        sc k 1%nat req = Resolved r2 -> status r2 = 200%Z ->
        res_body r2 = Some j ->
        run sc p = (Returned (Some j), [OFetch req; OTimer 10000; OFetch req]))
  /\ (forall r1 r2,
        sc k 0%nat req = Resolved r1 -> status r1 = 503%Z ->
        sc k 1%nat req = Resolved r2 -> status r2 = 503%Z ->
        run sc p = (Returned None, [OFetch req; OTimer 10000; OFetch req]))
  /\ (forall m, sc k 0%nat req = Rejected m ->
        run sc p = (Returned None, [OFetch req]))
  /\ (forall r1,
        sc k 0%nat req = Resolved r1 -> status r1 <> 503%Z ->
        ok r1 = false \/ res_body r1 = None ->
        run sc p = (Returned None, [OFetch req]))
  /\ (forall r1,
        sc k 0%nat req = Resolved r1 -> status r1 = 503%Z ->
        (exists m, sc k 1%nat req = Rejected m)
        \/ (exists r2, sc k 1%nat req = Resolved r2
                       /\ (ok r2 = false \/ res_body r2 = None)) ->
        run sc p = (Returned None, [OFetch req; OTimer 10000; OFetch req])).
Proof.
  cbv zeta. pose proof (run_hfInference sc) as Hrun. cbv zeta in Hrun.
  split; [|repeat split].
  - intros W h w.
    destruct (hfInference_returns (k := k) env model inputs h false w)
      as (r & w' & Hex & _).
    exists r, w'. exact Hex.
  - intros r1 r2 j H1 S1 H2 S2 Hj.
    rewrite Hrun, H1, S1, H2, (ok_200 r2 S2), Hj. reflexivity.
  - intros r1 r2 H1 S1 H2 S2.
    rewrite Hrun, H1, S1, H2, (not_ok_503 r2 S2). reflexivity.
  - intros m H1. rewrite Hrun, H1. reflexivity.
  - intros r1 H1 S1 Hbad.
    rewrite Hrun, H1. apply Z.eqb_neq in S1. rewrite S1.
    destruct Hbad as [-> | ->]; [reflexivity|].
    destruct (negb (ok r1)); reflexivity.
  - intros r1 H1 S1 [[m H2] | (r2 & H2 & Hbad)]; rewrite Hrun, H1, S1, H2.
    + reflexivity.
    + destruct Hbad as [-> | ->]; [reflexivity|].
      destruct (negb (ok r2)); reflexivity.
Qed.

End InferenceContract.

(** ** The sentiment wrapper *)

Section SentimentWrapper.
Import Net MlClient.

Lemma sentiment_step_top (scores : gmap string Q) (top l : LabelScore) :
  snd (sentiment_step (scores, Some top) l) =
    Some (if Qgtb (score l) (score top) then l else top).
Proof.
  unfold sentiment_step. cbn [snd].
  destruct (Qgtb (score l) (score top)); reflexivity.
Qed.

(** The loop of [analyzeSentiment] ends with a label of greatest score
    in [topLabel]. *)
Lemma sentiment_fold_top (labels : list LabelScore) (scores0 : gmap string Q)
      (top0 : LabelScore) :
  exists scores top,
    fold_left sentiment_step labels (scores0, Some top0) = (scores, Some top)
    /\ In top (top0 :: labels)
    /\ forall l, In l (top0 :: labels) -> (score l <= score top)%Q.
Proof.
  revert scores0 top0.
  induction labels as [|l labels IH]; intros scores0 top0.
  - exists scores0, top0. cbn. split; [reflexivity|]. split; [tauto|].
    intros l [<- | []]. apply Qle_refl.
  - cbn [fold_left].
    pose proof (sentiment_step_top scores0 top0 l) as Hstep.
    destruct (sentiment_step (scores0, Some top0) l) as [scores1 top1].
    cbn [snd] in Hstep. subst top1.
    destruct (Qgtb (score l) (score top0)) eqn:Hgt.
    + destruct (IH scores1 l) as (sc & top & Hf & Hin & Hmax).
      exists sc, top. split; [exact Hf|]. split.
      * cbn in Hin |- *. tauto.
      * assert (Hlt : (score top0 <= score l)%Q).
        { unfold Qgtb in Hgt. apply negb_true_iff in Hgt.
          apply Qlt_le_weak, Qnot_le_lt. intros Hle.
          apply Qle_bool_iff in Hle. congruence. }
        intros x [<- | Hx].
        -- apply Qle_trans with (score l); [exact Hlt|]. apply Hmax. left. reflexivity.
        -- apply Hmax. exact Hx.
    + destruct (IH scores1 top0) as (sc & top & Hf & Hin & Hmax).
      exists sc, top. split; [exact Hf|]. split.
      * cbn in Hin |- *. tauto.
      * assert (Hle : (score l <= score top0)%Q).
        { unfold Qgtb in Hgt. apply negb_false_iff in Hgt.
          apply Qle_bool_iff. exact Hgt. }
        intros x [<- | [<- | Hx]].
        -- apply Hmax. left. reflexivity.
        -- apply Qle_trans with (score top0); [exact Hle|]. apply Hmax. left. reflexivity.
        -- apply Hmax. right. exact Hx.
Qed.

(** C7. Answered by a model that numbers its classes [LABEL_0],
    [LABEL_1], [LABEL_2], the wrapper files the confidences under
    [negative], [neutral], [positive] in [scores] and reports the score of
    the most confident class, but the [label] it returns is the lower-cased
    identifier [label_0], not the name [negative]. *)
Theorem analyzeSentiment_numbered_label (env : Env) (text : string) :
  exists s,
    fst (run Samples.ready (analyzeSentiment env text)) = Returned (Some s)
    /\ s_label s = "label_0"
    /\ s_score s = (9 # 10)%Q
    /\ s_scores s !! "negative" = Some (9 # 10)%Q
    /\ s_scores s !! "neutral" = Some (7 # 100)%Q
    /\ s_scores s !! "positive" = Some (3 # 100)%Q
    /\ s_scores s !! "label_0" = None.
Proof.
  eexists. split; [vm_compute; reflexivity|].
  repeat split; vm_compute; reflexivity.
Qed.

End SentimentWrapper.

(** ** The sourcing analyzer *)

Section SourcingFacts.
Import Net Signal Sourcing.
Context {W : Type} (h : world W) (env : Env).

(** The NER wrapper returns in every world. *)
Lemma exec_analyzeEntities (text : string) (w : W) :
  exists ml w', exec h (MlClient.analyzeEntities env text) w = (Returned ml, w').
Proof.
  unfold MlClient.analyzeEntities. rewrite exec_bind.
  destruct (hfInference_returns (k := KEntities) env (MlClient.ner MlClient.MODELS)
              (MlClient.truncate text) h false w) as (r & w' & Hex & _).
  rewrite Hex. destruct r as [[items|]|]; cbn [exec]; eauto.
Qed.

Lemma exec_analyzeSourcing (c : Content) (w : W) :
  exists r w',
    exec h (analyzeSourcing env c) w = (Returned r, w')
    /\ if (len (sentencesLongerThan 10 (body c)) <? 2)%Z
       then r = canned /\ w' = w
       else exists ml, r = assess c ml.
Proof.
  unfold analyzeSourcing.
  destruct (len (sentencesLongerThan 10 (body c)) <? 2)%Z.
  - exists canned, w. cbn. auto.
  - rewrite exec_bind. unfold mlEntityData.
    destruct (exec_analyzeEntities (body c) w) as (ml & w' & Hex).
    rewrite Hex. cbn [exec]. exists (assess c ml), w'. eauto.
Qed.



End SourcingFacts.

Section SourcingScore.
Import Net Signal Sourcing.



End SourcingScore.

(** ** The corroboration client *)

Section CorroborationFacts.
Import Net NewsApi.




End CorroborationFacts.

Section CorroborationClient.
Import Net NewsApi.




End CorroborationClient.

(** ** What the analyzers return, in any world *)

Section AnalyzerRuns.
Import Net Signal.
Context {W : Type} (h : world W) (env : Env).

(** The detection wrapper returns in every world. *)
Lemma exec_detectSynthetic (text : string) (w : W) :
  exists ml w', exec h (MlClient.detectSynthetic env text) w = (Returned ml, w').
Proof.
  unfold MlClient.detectSynthetic. rewrite exec_bind.
  destruct (hfInference_returns (k := KClassification) env
              (MlClient.syntheticText MlClient.MODELS)
              (MlClient.truncate text) h false w) as (r & w' & Hex & _).
  rewrite Hex. destruct r as [[items|]|]; cbn [exec]; eauto.
Qed.

(** The sentiment wrapper returns, or throws on an answer without
    labels. *)
Lemma exec_analyzeSentiment (text : string) (w : W) :
  exists out w',
    exec h (MlClient.analyzeSentiment env text) w = (out, w')
    /\ match out with
       | Returned _ => True
       | Threw _ => Spec.noLabels h
       end.
Proof.
  unfold MlClient.analyzeSentiment. rewrite exec_bind.
  destruct (hfInference_returns (k := KClassification) env
              (MlClient.sentiment MlClient.MODELS)
              (MlClient.truncate text) h false w) as (r & w' & Hex & Hprov).
  rewrite Hex.
  destruct r as [[items|]|];
    [|cbn [exec]; eexists _, w'; split; [reflexivity | exact I]..].
  destruct (match items with l0 :: _ => l0 | [] => [] end) as [|l0 ls] eqn:Hlabels.
  - cbn [fold_left List.head exec]. eexists _, w'. split; [reflexivity|].
    destruct (Hprov _ eq_refl) as (w0 & w1 & res & Hfetch & Hbody).
    unfold Spec.noLabels. eexists _, w0, w1, res, items. eauto.
  - cbn [List.head].
    destruct (sentiment_fold_top (l0 :: ls) ∅ l0) as (scores & top & Hfold & _).
    rewrite Hfold. cbn [exec]. eexists _, w'. split; [reflexivity | exact I].
Qed.

(** The corroboration client returns in every world. *)
Lemma exec_checkCorroboration (c : Content) (w : W) :
  exists co w', exec h (NewsApi.checkCorroboration env c) w = (Returned co, w').
Proof.
  unfold NewsApi.checkCorroboration.
  destruct (negb (Js.truthy (NEWS_API_KEY env))); [cbn [exec]; eauto|].
  destruct (negb (Js.truthy _) || _)%bool; [cbn [exec]; eauto|].
  rewrite exec_try_catch, exec_bind. unfold fetch. cbn [exec].
  destruct (h _ (Fetch KNews _) w) as [[m | res] w1]; cbn [exec].
  - rewrite exec_bind. unfold console_warn, trigger. cbn [exec].
    destruct (h _ (ConsoleWarn _) w1) as [[] w2]. cbn [exec]. eauto.
  - destruct (negb (ok res)).
    + rewrite exec_bind. unfold console_warn, trigger. cbn [exec].
      destruct (h _ (ConsoleWarn _) w1) as [[] w2]. cbn [exec]. eauto.
    + rewrite exec_bind. unfold res_json.
      destruct (res_body res) as [data|]; cbn [exec]; [eauto|].
      rewrite exec_bind. unfold console_warn, trigger. cbn [exec].
      destruct (h _ (ConsoleWarn _) w1) as [[] w2]. cbn [exec]. eauto.
Qed.

Lemma exec_analyzeSyntheticText (c : Content) (w : W) :
  exists r w',
    exec h (SyntheticText.analyzeSyntheticText env c) w = (Returned r, w')
    /\ if (len (sentencesLongerThan 5 (body c)) <? 3)%Z
       then r = SyntheticText.canned /\ w' = w
       else exists ml,
           r = SyntheticText.assess (SyntheticText.heuristicSyntheticScore (body c)) ml.
Proof.
  unfold SyntheticText.analyzeSyntheticText.
  destruct (len (sentencesLongerThan 5 (body c)) <? 3)%Z.
  - exists SyntheticText.canned, w. cbn. auto.
  - rewrite exec_bind. unfold SyntheticText.mlSyntheticScore.
    destruct (exec_detectSynthetic (body c) w) as (ml & w' & Hex).
    rewrite Hex. cbn [exec]. eauto.
Qed.

Lemma exec_analyzeLinguistic (c : Content) (w : W) :
  exists out w',
    exec h (Linguistic.analyzeLinguistic env c) w = (out, w')
    /\ match out with
       | Returned r =>
           if (wordCount (body c) <? 15)%Z
           then r = Linguistic.canned /\ w' = w
           else exists s, r = Linguistic.assess (body c) s
       | Threw _ => Spec.noLabels h
       end.
Proof.
  unfold Linguistic.analyzeLinguistic.
  destruct (wordCount (body c) <? 15)%Z.
  - exists (Returned Linguistic.canned), w. cbn. auto.
  - rewrite exec_bind. unfold Linguistic.mlSentiment.
    destruct (exec_analyzeSentiment (body c) w) as (out & w' & Hex & Hout).
    rewrite Hex. destruct out as [s | m]; cbn [exec].
    + eexists _, w'. split; [reflexivity|]. exists s. reflexivity.
    + eexists _, w'. split; [reflexivity | exact Hout].
Qed.

Lemma exec_analyzeTemporal (c : Content) (w : W) :
  exists r w',
    exec h (Temporal.analyzeTemporal env c) w = (Returned r, w')
    /\ if (len (sentencesLongerThan 5 (body c)) <? 2)%Z
       then r = Temporal.canned /\ w' = w
       else exists co, r = Temporal.assess c co.
Proof.
  unfold Temporal.analyzeTemporal.
  destruct (len (sentencesLongerThan 5 (body c)) <? 2)%Z.
  - exists Temporal.canned, w. cbn. auto.
  - rewrite exec_bind.
    destruct (exec_checkCorroboration c w) as (co & w' & Hex).
    rewrite Hex. cbn [exec]. eauto.
Qed.

Lemma exec_analyzeStructural (c : Content) (w : W) :
  exists r,
    exec h (Structural.analyzeStructural c) w = (Returned r, w)
    /\ if (wordCount (body c) <? 10)%Z
       then r = Structural.canned
       else r = Structural.assess c.
Proof.
  unfold Structural.analyzeStructural.
  destruct (wordCount (body c) <? 10)%Z; cbn [exec]; eauto.
Qed.

End AnalyzerRuns.

(** ** The range of the scores *)

Section ScoreRanges.
Import Signal.
Local Open Scope Z_scope.






End ScoreRanges.

Section SyntheticRange.
Import Signal SyntheticText.





End SyntheticRange.

(** ** The analyzers *)

Section Analyzers.
Import Net Signal.
Local Open Scope Z_scope.



(** C3, as stated, fails: the three-sentence sample has six words, and the
    synthetic-text analyzer does not answer it with its canned result. *)
Lemma short_body_not_canned :
  wordCount (body Samples.threeSentences) < 15
  /\ fst (run Samples.offline
            (SyntheticText.analyzeSyntheticText Samples.noKeys Samples.threeSentences))
     <> Returned SyntheticText.canned.
Proof. split; [reflexivity | vm_compute; discriminate]. Qed.

(** C3, amended.  Whatever the other fields and whatever the world, the
    linguistic analyzer answers a body of fewer than 15 words with its
    canned result, and the synthetic-text analyzer answers a body of
    fewer than 3 qualifying sentences with its own; neither calls out. *)
Theorem short_input_guards {W : Type} (h : world W) (env : Env) (c : Content) (w : W) :
  (wordCount (body c) < 15 ->
   exec h (Linguistic.analyzeLinguistic env c) w = (Returned Linguistic.canned, w))
  /\ (len (sentencesLongerThan 5 (body c)) < 3 ->
      exec h (SyntheticText.analyzeSyntheticText env c) w
      = (Returned SyntheticText.canned, w)).
Proof.
  split; intros Hguard; apply Z.ltb_lt in Hguard.
  - unfold Linguistic.analyzeLinguistic. rewrite Hguard. reflexivity.
  - unfold SyntheticText.analyzeSyntheticText. rewrite Hguard. reflexivity.
Qed.

Lemma short_input_guards_witness :
  exec (scripted Samples.ready)
    (Linguistic.analyzeLinguistic Samples.noKeys Samples.tooShort) (O, [])
  = (Returned Linguistic.canned, (O, []))
  /\ exec (scripted Samples.ready)
       (SyntheticText.analyzeSyntheticText Samples.noKeys Samples.tooShort) (O, [])
     = (Returned SyntheticText.canned, (O, [])).
Proof.
  destruct (short_input_guards (scripted Samples.ready) Samples.noKeys
              Samples.tooShort (O, [])) as [Hling Hsynth].
  split; [apply Hling | apply Hsynth]; reflexivity.
Defined.

End Analyzers.

(** ** Determinism *)

Section Determinism.
Import Net Signal.




End Determinism.

(** ** The properties at the sample inputs *)

Section AtSamples.
Import Net Signal.

Lemma aggregate_all_low_witness :
  Aggregator.confidenceBand (Aggregator.aggregate Samples.allLow Samples.report) = low
  /\ Aggregator.disagreements (Aggregator.aggregate Samples.allLow Samples.report) = [].
Proof.
  apply aggregate_all_low; reflexivity.
Defined.

Lemma hfInference_contract_witness :
  let req := MlClient.hfRequest Samples.noKeys
               (MlClient.sentiment MlClient.MODELS) "Is this true?" in
  run Samples.warmingUp
    (MlClient.hfInference (k := KClassification) Samples.noKeys
       (MlClient.sentiment MlClient.MODELS) "Is this true?" false)
  = (Returned (Some Samples.numbered), [OFetch req; OTimer 10000; OFetch req]).
Proof.
  cbv zeta.
  apply (proj1 (proj2 (hfInference_contract (k := KClassification) Samples.noKeys
                         (MlClient.sentiment MlClient.MODELS) "Is this true?"
                         Samples.warmingUp)))
    with (r1 := Build_Response KClassification 503 None)
         (r2 := Build_Response KClassification 200 (Some Samples.numbered));
    reflexivity.
Defined.


End AtSamples.

(** ** The most confident class *)

Section SentimentTop.
Import Net MlClient.
Context {W : Type} (h : world W) (env : Env).

(** A request answered at once by a success whose body parses. *)
Lemma exec_hfInference_ok {k : kind} (model inputs : string) (w w1 : W)
      (res : Response k) (j : payload k) :
  h _ (Fetch k (hfRequest env model inputs)) w = (Resolved res, w1) ->
  ok res = true ->
  res_body res = Some j ->
  exec h (hfInference env model inputs false) w = (Returned (Some j), w1).
Proof.
  intros Hfetch Hok Hbody.
  rewrite exec_hfInference_unfold, exec_hfInference_pass, Hfetch.
  destruct (status res =? 503)%Z eqn:E.
  - apply Z.eqb_eq, not_ok_503 in E. congruence.
  - cbn [andb]. rewrite Hok, Hbody. reflexivity.
Qed.

(** The part of C7 that holds of every answer with at least one label:
    the wrapper returns, its [score] is the greatest confidence among the
    labels, and its [label] is that of a class of that confidence, mapped
    to a name when it is exactly ["0"], ["1"] or ["2"] and lower-cased
    otherwise. *)
Lemma analyzeSentiment_reports_top (text : string) (w w1 : W)
      (res : Response KClassification) (l0 : LabelScore)
      (labels : list LabelScore) (rest : list (list LabelScore)) :
  h _ (Fetch KClassification
         (hfRequest env (sentiment MODELS) (truncate text))) w = (Resolved res, w1) ->
  ok res = true ->
  res_body res = Some (JArray ((l0 :: labels) :: rest)) ->
  exists s top,
    exec h (analyzeSentiment env text) w = (Returned (Some s), w1)
    /\ In top (l0 :: labels)
    /\ s_score s = score top
    /\ (forall l, In l (l0 :: labels) -> (score l <= s_score s)%Q)
    /\ s_label s = (if String.eqb (label top) "0" then "negative"
                    else if String.eqb (label top) "1" then "neutral"
                    else if String.eqb (label top) "2" then "positive"
                    else Js.toLowerCase (label top)).
Proof.
  intros Hfetch Hok Hbody.
  unfold analyzeSentiment. rewrite exec_bind.
  rewrite (exec_hfInference_ok _ _ w w1 res _ Hfetch Hok Hbody).
  cbn [List.head].
  destruct (sentiment_fold_top (l0 :: labels) ∅ l0) as (scores & top & Hfold & Hin & Hmax).
  rewrite Hfold. cbn [exec].
  eexists _, top. split; [reflexivity|]. cbn [s_score s_label].
  split; [|split; [reflexivity | split; [|reflexivity]]].
  - destruct Hin as [<- | Hin]; [left; reflexivity | exact Hin].
  - intros l Hl. apply Hmax. right. exact Hl.
Qed.

End SentimentTop.

(** ** The patterns *)

(** Every pattern of the sources is a pattern of the fragment, so that
    [Regex.compile] never falls back. *)
Lemma patterns_parse :
  forallb (fun p => match Regex.parse (Regex.re_source p) with
                    | Some _ => true
                    | None => false
                    end)
    (Sourcing.ATTRIBUTION_PATTERNS ++ Sourcing.ANONYMOUS_PATTERNS
     ++ Sourcing.CLAIM_INDICATORS ++ Temporal.CORROBORATION_SIGNALS
     ++ Structural.CLICKBAIT_PATTERNS
     ++ List.map (fun w => Regex.re_g ("\b" +:+ w +:+ "\b"))
          Linguistic.EMOTIONAL_INTENSIFIERS
     ++ List.map Regex.re
          ["\s+"; "[.!?]+"; "^[BI]-"; "[^a-zA-Z\s]"; "[^a-z\s]"; "\b[a-z]+\b";
           "https?:\/\/[^\s)>]+"; "!"; "\b[A-Z]{3,}\b"; "\[\.{3}\]";
           "\b(?:January|February|March|April|May|June|July|August|September|October|November|December)\s+\d{1,2}";
           "\b\d{1,2}\/\d{1,2}\/\d{2,4}\b"; "\b\d{4}-\d{2}-\d{2}\b";
           "\b(?:yesterday|today|last week|last month|this morning|this afternoon)\b"])%list
  = true.
Proof. vm_compute. reflexivity. Qed.

(** * Further properties *)

(** ** The aggregator, further *)

Section AggregatorFurther.
Import Signal Aggregator.

Lemma countLevel_zero_not_In (lv : Level) (ls : list Level) :
  (countLevel lv ls < 1)%Z -> ~ In lv ls.
Proof.
  rewrite countLevel_count_occ. intros Hlt Hin.
  apply (count_occ_In Level_eq_dec) in Hin. lia.
Qed.

(** X1. A low band comes with no disagreement: when the band is low no
    signal is high, so the list of disagreements is empty. *)
Theorem low_band_no_disagreement (s : Signals) (c : Content) :
  confidenceBand (aggregate s c) = low ->
  ~ In high (Spec.levels s) /\ disagreements (aggregate s c) = [].
Proof.
  intros Hband. rewrite confidenceBand_unfold in Hband. cbv zeta in Hband.
  assert (Hnone : ~ In high (Spec.levels s)).
  { destruct (_ || Qgeb _ (inject_Z 65))%bool; [discriminate|].
    destruct (1 <=? countLevel high (Spec.levels s))%Z eqn:Hone;
      [discriminate|].
    apply countLevel_zero_not_In. apply Z.leb_gt in Hone. exact Hone. }
  split; [exact Hnone|].
  destruct (disagreements_cases s c) as [[[Hhigh _] _] | [_ Hnil]];
    [contradiction | exact Hnil].
Qed.

Lemma low_band_no_disagreement_witness :
  ~ In high (Spec.levels Samples.allLow)
  /\ disagreements (aggregate Samples.allLow Samples.report) = [].
Proof.
  apply (low_band_no_disagreement Samples.allLow Samples.report). reflexivity.
Defined.

(** The suggestions, with the record and the other fields peeled off. *)
Lemma suggestions_unfold (s : Signals) (c : Content) :
  suggestions (aggregate s c) =
    let rules :=
      Linguistic.pushIf
        (negb (Js.truthy (source c)) || String.eqb (source c) "manual-paste")
        "Try to identify the original source of this content for better context"
        (Linguistic.pushIf (notLow (structural s))
           "Read beyond the headline — check if the body actually supports the framing"
           (Linguistic.pushIf (notLow (temporal s))
              "Wait for the story to develop — initial reports are often incomplete or inaccurate"
              (Linguistic.pushIf (notLow (linguistic s))
                 "Compare this content to coverage of the same topic that uses more measured language"
                 (Linguistic.pushIf (notLow (syntheticText s))
                    "Check whether a named human author is associated with this content and has a verifiable track record"
                    (Linguistic.pushIf (notLow (sourcing s))
                       "Look for the same story reported by multiple independent news organizations with their own sourcing"
                       []))))) in
    if (len rules =? 0)%Z then More.fallbackSuggestions else rules.
Proof. reflexivity. Qed.

Lemma notLow_false (r : SignalResult) : notLow r = false <-> level r = low.
Proof. unfold notLow. destruct (level r); cbn; split; congruence. Qed.

(** X2. The aggregator always suggests something, and never more than six
    things.  It falls back on its two generic suggestions exactly when all
    five signals are low and the content names a source other than a
    manual paste. *)
Theorem suggestions_shape (s : Signals) (c : Content) :
  (1 <= length (suggestions (aggregate s c)) <= 6)%nat
  /\ (suggestions (aggregate s c) = More.fallbackSuggestions
      <-> (Forall (fun l => l = low) (Spec.levels s)
           /\ source c <> "" /\ source c <> "manual-paste")).
Proof.
  rewrite suggestions_unfold. cbv zeta.
  assert (Hsrc : (negb (Js.truthy (source c)) || String.eqb (source c) "manual-paste")%bool
                 = false <-> source c <> "" /\ source c <> "manual-paste").
  { unfold Js.truthy. rewrite negb_involutive, orb_false_iff.
    rewrite <- !not_true_iff_false, !String.eqb_eq. reflexivity. }
  assert (Hall : Forall (fun l => l = low) (Spec.levels s)
                 <-> notLow (sourcing s) = false /\ notLow (syntheticText s) = false
                     /\ notLow (linguistic s) = false /\ notLow (temporal s) = false
                     /\ notLow (structural s) = false).
  { unfold Spec.levels, Spec.five. cbn [List.map].
    rewrite !Forall_cons_iff, Forall_nil_iff, !notLow_false. tauto. }
  rewrite Hall, <- Hsrc. clear Hall Hsrc.
  destruct (negb (Js.truthy (source c)) || String.eqb (source c) "manual-paste")%bool,
    (notLow (sourcing s)), (notLow (syntheticText s)), (notLow (linguistic s)),
    (notLow (temporal s)), (notLow (structural s));
    (split; [vm_compute; lia|]);
    first [ split; [intros _; repeat split | intros _; reflexivity]
          | split; [intros Heq; vm_compute in Heq; discriminate Heq
                   | intros Hfalse; exfalso; intuition discriminate] ].
Qed.

End AggregatorFurther.

(** ** Levels and scores *)

Section LevelsFollowScores.
Import Net Signal.
Local Open Scope Z_scope.

Lemma synthetic_assess_level (hraw : Q) (ml : option Q) :
  level (SyntheticText.assess hraw ml)
  = More.levelBy 60 30 (score (SyntheticText.assess hraw ml)).
Proof.
  unfold SyntheticText.assess, More.levelBy. cbv zeta. cbn [level score].
  reflexivity.
Qed.

Lemma sourcing_assess_level (c : Content) (ml : option MlClient.EntityData) :
  level (Sourcing.assess c ml) = More.levelBy 60 35 (score (Sourcing.assess c ml)).
Proof.
  unfold Sourcing.assess, Sourcing.sourcingLevel, More.levelBy. cbv zeta.
  cbn [level score]. reflexivity.
Qed.

Lemma linguistic_assess_level (text : string) (s : option MlClient.Sentiment) :
  level (Linguistic.assess text s)
  = More.levelBy 55 25 (score (Linguistic.assess text s)).
Proof.
  unfold Linguistic.assess, More.levelBy. cbv zeta. cbn [level score].
  reflexivity.
Qed.

Lemma temporal_assess_level (c : Content) (co : option NewsApi.Corroboration) :
  level (Temporal.assess c co) = More.levelBy 55 25 (score (Temporal.assess c co)).
Proof.
  unfold Temporal.assess.
  destruct (Temporal.internalChecks c) as [risk details].
  destruct co as [co|];
    [destruct (NewsApi.found co =? 0); [|destruct (NewsApi.independentPhrasing co)]|];
    unfold More.levelBy; cbv beta iota zeta; cbn [level score]; reflexivity.
Qed.

Lemma structural_assess_level (c : Content) :
  level (Structural.assess c) = More.levelBy 55 25 (score (Structural.assess c)).
Proof.
  unfold Structural.assess. destruct (Structural.checks c) as [risk details].
  unfold More.levelBy. cbv beta iota zeta. cbn [level score]. reflexivity.
Qed.

(** X3. The level of every result an analyzer returns is the one its
    cutoffs give the score of that result (60 and 30 for synthetic text, 60
    and 35 for sourcing, 55 and 25 for the other three), on the canned
    paths as on the computed ones; no result carries a level at odds with
    its score. *)
Theorem level_follows_score {W : Type} (h : world W) (env : Env) (c : Content) (w : W) :
  (exists r, fst (exec h (SyntheticText.analyzeSyntheticText env c) w) = Returned r
             /\ level r = More.levelBy 60 30 (score r))
  /\ (exists r, fst (exec h (Sourcing.analyzeSourcing env c) w) = Returned r
                /\ level r = More.levelBy 60 35 (score r))
  /\ (match fst (exec h (Linguistic.analyzeLinguistic env c) w) with
      | Returned r => level r = More.levelBy 55 25 (score r)
      | Threw _ => Spec.noLabels h
      end)
  /\ (exists r, fst (exec h (Temporal.analyzeTemporal env c) w) = Returned r
                /\ level r = More.levelBy 55 25 (score r))
  /\ (exists r, fst (exec h (Structural.analyzeStructural c) w) = Returned r
                /\ level r = More.levelBy 55 25 (score r)).
Proof.
  split; [|split; [|split; [|split]]].
  - destruct (exec_analyzeSyntheticText h env c w) as (r & w' & Hex & Hr).
    exists r. rewrite Hex. split; [reflexivity|].
    destruct (len (sentencesLongerThan 5 (body c)) <? 3).
    + destruct Hr as [-> _]. reflexivity.
    + destruct Hr as [ml ->]. apply synthetic_assess_level.
  - destruct (exec_analyzeSourcing h env c w) as (r & w' & Hex & Hr).
    exists r. rewrite Hex. split; [reflexivity|].
    destruct (len (sentencesLongerThan 10 (body c)) <? 2).
    + destruct Hr as [-> _]. reflexivity.
    + destruct Hr as [ml ->]. apply sourcing_assess_level.
  - destruct (exec_analyzeLinguistic h env c w) as (out & w' & Hex & Hout).
    rewrite Hex. cbn [fst]. destruct out as [r | m]; [|exact Hout].
    destruct (wordCount (body c) <? 15).
    + destruct Hout as [-> _]. reflexivity.
    + destruct Hout as [s ->]. apply linguistic_assess_level.
  - destruct (exec_analyzeTemporal h env c w) as (r & w' & Hex & Hr).
    exists r. rewrite Hex. split; [reflexivity|].
    destruct (len (sentencesLongerThan 5 (body c)) <? 2).
    + destruct Hr as [-> _]. reflexivity.
    + destruct Hr as [co ->]. apply temporal_assess_level.
  - destruct (exec_analyzeStructural h c w) as (r & Hex & Hr).
    exists r. rewrite Hex. split; [reflexivity|].
    destruct (wordCount (body c) <? 10); subst r.
    + reflexivity.
    + apply structural_assess_level.
Qed.

End LevelsFollowScores.

(** ** The sourcing score, further *)

Section SourcingFurther.
Import Signal Sourcing.
Local Open Scope Z_scope.

Lemma sourcing_assess_score (c : Content) (ml : option MlClient.EntityData) :
  score (assess c ml)
  = sourcingScore (Spec.namedSources c ml) (Spec.anonymousClaims c)
      (Spec.unattributedClaims c) (Spec.links c) (author c).
Proof.
  unfold assess. cbv zeta. cbn [score]. destruct ml; reflexivity.
Qed.

(** X4. Named entities never raise the sourcing score: of two answers of
    the NER model on the same content, the one that counts more persons
    and organisations gives a score that is no higher, and the difference
    is at most 30. *)
Theorem more_sources_lower_score (c : Content) (e1 e2 : MlClient.EntityData) :
  MlClient.person_count e1 + MlClient.org_count e1
  <= MlClient.person_count e2 + MlClient.org_count e2 ->
  0 <= MlClient.person_count e1 + MlClient.org_count e1 ->
  score (assess c (Some e2)) <= score (assess c (Some e1))
  <= score (assess c (Some e2)) + 30.
Proof.
  intros Hle Hnonneg. rewrite !sourcing_assess_score.
  unfold sourcingScore, Spec.namedSources. cbv zeta.
  destruct (Js.truthy (author c)); lia.
Qed.

Lemma more_sources_lower_score_witness :
  let none := {| MlClient.person_count := 0; MlClient.org_count := 0;
                 MlClient.entities := [] |} in
  let four := {| MlClient.person_count := 3; MlClient.org_count := 1;
                 MlClient.entities := [] |} in
  score (assess Samples.report (Some four)) <= score (assess Samples.report (Some none))
  <= score (assess Samples.report (Some four)) + 30.
Proof.
  cbv zeta. apply more_sources_lower_score; cbn; lia.
Defined.

(** X5. A byline lowers the sourcing score by at most 5 and never raises
    it: two contents with the same body, one with an author and one
    without, differ by that much whatever the NER model answered. *)
Theorem byline_lowers_score (c1 c2 : Content) (ml : option MlClient.EntityData) :
  body c1 = body c2 ->
  author c1 = "" ->
  author c2 <> "" ->
  score (assess c2 ml) <= score (assess c1 ml) <= score (assess c2 ml) + 5.
Proof.
  intros Hbody Hnone Hsome. rewrite !sourcing_assess_score.
  unfold Spec.namedSources, Spec.anonymousClaims, Spec.unattributedClaims, Spec.links.
  rewrite Hbody, Hnone.
  assert (Htruthy : Js.truthy (author c2) = true).
  { unfold Js.truthy. apply negb_true_iff, String.eqb_neq. exact Hsome. }
  unfold sourcingScore. cbv zeta. rewrite Htruthy.
  change (Js.truthy "") with false. cbv iota. lia.
Qed.

Lemma byline_lowers_score_witness :
  score (assess Samples.report None)
  <= score (assess (Samples.pasted (body Samples.report)) None)
  <= score (assess Samples.report None) + 5.
Proof.
  apply byline_lowers_score; [reflexivity | reflexivity | discriminate].
Defined.

End SourcingFurther.
